(** * SearchQueryUtils: a shallow embedding of src/libs/SearchQueryUtils.ts

    The TypeScript module converts between a search query string, the
    syntax tree of the grammar, the flattened filters and the values of the
    advanced-filters form, and fingerprints a query with a hash.

    Strings are sequences of 8-bit code units ([string]); a JavaScript object
    used as a dictionary is an association list in insertion order; code that
    mutates its argument returns the argument's new state next to its
    result; [undefined] is [None]; a thrown exception is [None] as well. *)

From Stdlib Require Import String Ascii List ZArith NArith Bool Lia.
From Stdlib Require Import Permutation Sorted OrderedTypeEx DecimalString.
Import ListNotations.

Open Scope string_scope.

(** ** JavaScript primitives *)

(** A string is truthy when it is not empty. *)
Definition truthy (s : string) : bool :=
match s with
| EmptyString => false
| String _ _ => true
end.

(** An optional string is truthy when it is defined and not empty. *)
Definition truthy_opt (o : option string) : bool :=
match o with
| Some s => truthy s
| None => false
end.

(** [a ?? b] *)
Definition nullish {A : Type} (a : option A) (b : A) : A :=
match a with
| Some x => x
| None => b
end.

(** [a ?? b] where [b] may be undefined too *)
Definition nullish_opt {A : Type} (a b : option A) : option A :=
match a with
| Some x => Some x
| None => b
end.

(** [parts.join(sep)] *)
Definition join (sep : string) (parts : list string) : string :=
String.concat sep parts.

(** [array.push(x)] *)
Definition push {A : Type} (array : list A) (x : A) : list A := (array ++ [x])%list.

(** [array.push(...xs)] *)
Definition pushAll {A : Type} (array xs : list A) : list A := (array ++ xs)%list.

(** [s.split(sep)] for a separator of one character. *)
Fixpoint split (sep : ascii) (s : string) : list string :=
match s with
| EmptyString => [EmptyString]
| String c s' =>
    if Ascii.eqb c sep then EmptyString :: split sep s'
    else match split sep s' with
         | [] => [String c EmptyString]
         | piece :: pieces => String c piece :: pieces
         end
end.

(** White space as [String.prototype.trim] sees it, among the 8-bit
    characters: tab, line feed, vertical tab, form feed, carriage return,
    space and the no-break space. *)
Definition isWhiteSpace (c : ascii) : bool :=
let n := nat_of_ascii c in
(((9 <=? n) && (n <=? 13)) || (n =? 32) || (n =? 160))%nat.

Fixpoint trimStart (s : string) : string :=
match s with
| EmptyString => EmptyString
| String c s' => if isWhiteSpace c then trimStart s' else s
end.

Definition reverse (s : string) : string :=
string_of_list_ascii (rev (list_ascii_of_string s)).

Definition trimEnd (s : string) : string :=
reverse (trimStart (reverse s)).

(** [s.trim()] *)
Definition trim (s : string) : string := trimEnd (trimStart s).

(** [n.toString()] for a non-negative integer. *)
Definition toString (n : N) : string :=
NilEmpty.string_of_uint (N.to_uint n).

(** [a > b] on strings: lexicographic on the code units. *)
Definition gt_string (a b : string) : bool := String.ltb b a.

(** One insertion step of the sort: the new element [x] is compared, as the
    first argument of the comparator, with the elements before it, nearest
    first, and moves in front of each one for which the comparator answers a
    negative number. [before] and the result list the sorted prefix from
    its last element to its first. *)
Fixpoint sift {A : Type} (comparefn : A -> A -> Z) (x : A) (before : list A) : list A :=
match before with
| [] => [x]
| y :: rest =>
    if (comparefn x y <? 0)%Z then y :: sift comparefn x rest
    else x :: before
end.

(** [array.sort(comparefn)], as an insertion sort: each element in turn is
    sifted into the sorted prefix. The language fixes the result for a
    comparator that orders the elements, and every sorting algorithm then
    returns this list; for another comparator it leaves the order to the
    engine, and the model takes the order of this insertion, which is the
    one of the insertion step of V8 and of Hermes on two elements. *)
Definition sort {A : Type} (comparefn : A -> A -> Z) (array : list A) : list A :=
rev (fold_left (fun before x => sift comparefn x before) array []).

(** The comparator of [array.sort()] without argument, on strings. *)
Definition defaultCompare (a b : string) : Z :=
if String.ltb a b then (-1)%Z
else if String.ltb b a then 1%Z
else 0%Z.

(** ** Objects used as dictionaries *)

(** An object with string keys: the association list of its properties in
    insertion order, every key at most once. *)
Definition Obj (V : Type) : Type := list (string * V).

(** [obj[key]] *)
Fixpoint obj_get {V : Type} (key : string) (obj : Obj V) : option V :=
match obj with
| [] => None
| (k, v) :: rest => if String.eqb k key then Some v else obj_get key rest
end.

(** [obj[key] = v]: an existing property keeps its place, a new one goes
    last. *)
Fixpoint obj_set {V : Type} (key : string) (v : V) (obj : Obj V) : Obj V :=
match obj with
| [] => [(key, v)]
| (k, w) :: rest =>
    if String.eqb k key then (k, v) :: rest
    else (k, w) :: obj_set key v rest
end.

(** [Object.keys(obj)] *)
Definition obj_keys {V : Type} (obj : Obj V) : list string := map fst obj.

(** [Object.values(obj)] *)
Definition obj_values {V : Type} (obj : Obj V) : list V := map snd obj.

(** ** Constants *)

(** Modelled from the spec: CONST.SEARCH is not part of the sources. The
    operators are the members of SYNTAX_OPERATORS that [operatorToCharMap]
    lists; the source compares an operator with the literals eq, neq, lt and
    gt, which are EQUAL_TO, NOT_EQUAL_TO, LOWER_THAN and GREATER_THAN. *)
Inductive Operator : Type :=
| EQUAL_TO
| LOWER_THAN
| LOWER_THAN_OR_EQUAL_TO
| GREATER_THAN
| GREATER_THAN_OR_EQUAL_TO
| NOT_EQUAL_TO
| AND
| OR.

Definition Operator_eqb (a b : Operator) : bool :=
match a, b with
| EQUAL_TO, EQUAL_TO
| LOWER_THAN, LOWER_THAN
| LOWER_THAN_OR_EQUAL_TO, LOWER_THAN_OR_EQUAL_TO
| GREATER_THAN, GREATER_THAN
| GREATER_THAN_OR_EQUAL_TO, GREATER_THAN_OR_EQUAL_TO
| NOT_EQUAL_TO, NOT_EQUAL_TO
| AND, AND
| OR, OR => true
| _, _ => false
end.

(** Modelled from the spec: the keys of the root fields, CONST.SEARCH.
    SYNTAX_ROOT_KEYS. Each one is the name of the field of SearchQueryJSON
    that the source reads through it. *)
Inductive RootKey : Type :=
| TYPE
| STATUS
| SORT_BY
| SORT_ORDER
| POLICY_ID.

Definition rootKeyName (key : RootKey) : string :=
match key with
| TYPE => "type"
| STATUS => "status"
| SORT_BY => "sortBy"
| SORT_ORDER => "sortOrder"
| POLICY_ID => "policyID"
end.

(** Modelled from the spec: the values of the members of CONST.SEARCH.
    SYNTAX_FILTER_KEYS that the source names, with the sort column and the
    sort order of the form converter. *)
Module CONST.
Definition DATE : string := "date".
Definition AMOUNT : string := "amount".
Definition FROM : string := "from".
Definition TO : string := "to".
Definition TAX_RATE : string := "taxRate".
Definition CARD_ID : string := "cardID".
Definition KEYWORD : string := "keyword".
Definition TABLE_COLUMNS_DATE : string := "date".
Definition SORT_ORDER_DESC : string := "desc".
End CONST.

(** Modelled from the spec: the names of the fields of the advanced-filters
    form, FILTER_KEYS of src/types/form/SearchAdvancedFiltersForm, which is
    not part of the sources. *)
Module FILTER_KEYS.
Definition TYPE : string := "type".
Definition STATUS : string := "status".
Definition POLICY_ID : string := "policyID".
Definition DATE_AFTER : string := "dateAfter".
Definition DATE_BEFORE : string := "dateBefore".
Definition LESS_THAN : string := "lessThan".
Definition GREATER_THAN : string := "greaterThan".
Definition MERCHANT : string := "merchant".
Definition DESCRIPTION : string := "description".
Definition REPORT_ID : string := "reportID".
Definition KEYWORD : string := "keyword".
Definition CATEGORY : string := "category".
Definition CARD_ID : string := "cardID".
Definition TAX_RATE : string := "taxRate".
Definition EXPENSE_TYPE : string := "expenseType".
Definition TAG : string := "tag".
Definition CURRENCY : string := "currency".
Definition FROM : string := "from".
Definition TO : string := "to".
Definition IN : string := "in".
End FILTER_KEYS.

(** [operatorToCharMap] *)
Definition operatorToCharMap (operator : Operator) : string :=
match operator with
| EQUAL_TO => ":"
| LOWER_THAN => "<"
| LOWER_THAN_OR_EQUAL_TO => "<="
| GREATER_THAN => ">"
| GREATER_THAN_OR_EQUAL_TO => ">="
| NOT_EQUAL_TO => "!="
| AND => ","
| OR => " "
end.

(** ** Data model *)

(** Modelled from the spec: the types of components/Search/types, which is
    not part of the sources. The grammar stores every value as a string,
    and [value.toString()] is then the value. *)
Record QueryFilter : Type := mkQueryFilter {
  operator : Operator;
  value : string
}.

Definition QueryFilters : Type := Obj (list QueryFilter).

(** The right-hand side of a comparison: a string or an array of strings. *)
Inductive FilterValue : Type :=
| Scalar (v : string)
| Values (vs : list string).

(** A node of the syntax tree. [left] is a filter key or a node; [right] is
    a string, an array of strings or a node. A node whose [left] is a key
    carries a string or an array on the right, as the source assumes when it
    casts [node.right] to a value in [getFilters] and to a string or an
    array for [findIDFromDisplayValue]; the three constructors are the
    remaining shapes. The operator is absent on a pure value. *)
Inductive ASTNode : Type :=
| KeyNode (operator : option Operator) (left : string) (right : FilterValue)
| LeftNode (operator : option Operator) (left : ASTNode) (right : FilterValue)
| PairNode (operator : option Operator) (left : ASTNode) (right : ASTNode).

Record SearchQueryJSON : Type := mkSearchQueryJSON {
  inputQuery : string;
  hash : N;
  type : string;
  status : string;
  sortBy : string;
  sortOrder : string;
  policyID : option string;
  filters : option ASTNode;
  flatFilters : QueryFilters
}.

(** [query.flatFilters = flatFilters] and its like, on a record. *)
Definition set_flatFilters (query : SearchQueryJSON) (f : QueryFilters) : SearchQueryJSON :=
mkSearchQueryJSON (inputQuery query) (hash query) (type query) (status query)
  (sortBy query) (sortOrder query) (policyID query) (filters query) f.

Definition set_inputQuery (query : SearchQueryJSON) (s : string) : SearchQueryJSON :=
mkSearchQueryJSON s (hash query) (type query) (status query)
  (sortBy query) (sortOrder query) (policyID query) (filters query) (flatFilters query).

Definition set_hash (query : SearchQueryJSON) (h : N) : SearchQueryJSON :=
mkSearchQueryJSON (inputQuery query) h (type query) (status query)
  (sortBy query) (sortOrder query) (policyID query) (filters query) (flatFilters query).

Definition set_filters (query : SearchQueryJSON) (ast : option ASTNode) : SearchQueryJSON :=
mkSearchQueryJSON (inputQuery query) (hash query) (type query) (status query)
  (sortBy query) (sortOrder query) (policyID query) ast (flatFilters query).

(** [queryJSON[key]] for a root key. *)
Definition rootField (key : RootKey) (queryJSON : SearchQueryJSON) : option string :=
match key with
| TYPE => Some (type queryJSON)
| STATUS => Some (status queryJSON)
| SORT_BY => Some (sortBy queryJSON)
| SORT_ORDER => Some (sortOrder queryJSON)
| POLICY_ID => policyID queryJSON
end.

(** A value of the advanced-filters form: a string or an array of strings. *)
Inductive FormValue : Type :=
| Text (s : string)
| Items (l : list string).

(** [Partial<SearchAdvancedFiltersForm>] *)
Definition SearchAdvancedFiltersForm : Type := Obj FormValue.

(** A form value in a condition: an empty string is falsy, an array is
    truthy even when it is empty, an absent field is falsy. *)
Definition truthyValue (v : option FormValue) : bool :=
match v with
| Some (Text s) => truthy s
| Some (Items _) => true
| None => false
end.

(** A form value in a template literal, or cast to a string and read by the
    regular expression: an array reads as its elements joined by commas. *)
Definition asString (v : option FormValue) : string :=
match v with
| Some (Text s) => s
| Some (Items l) => join "," l
| None => "undefined"
end.

(** The directories of the Standardizer. *)
Record Card : Type := mkCard {
  bank : string;
  cardID : N
}.

Definition CardList : Type := Obj Card.

Record PersonalDetails : Type := mkPersonalDetails {
  accountID : N
}.

(** ** The functions of SearchQueryUtils.ts *)

(** The characters that the regular expression of [sanitizeSearchValue]
    excludes from its negated class. *)
Definition isSafeChar (c : ascii) : bool :=
let n := nat_of_ascii c in
(((65 <=? n) && (n <=? 90))
 || ((97 <=? n) && (n <=? 122))
 || ((48 <=? n) && (n <=? 57)))%nat
|| existsb (Ascii.eqb c)
     ["_"; "@"; "."; "/"; "#"; "&"; "+"; "-"; "\"; "'"; ";"; ","; "034"]%char.

(** [regexp.test(str)]: some character is outside the class. *)
Fixpoint hasUnsafeChar (str : string) : bool :=
match str with
| EmptyString => false
| String c rest => negb (isSafeChar c) || hasUnsafeChar rest
end.

Definition quote : string := String "034"%char EmptyString.

Definition sanitizeSearchValue (str : string) : string :=
if hasUnsafeChar str then quote ++ str ++ quote else str.

Definition buildDateFilterQuery (filterValues : SearchAdvancedFiltersForm) : string :=
let dateBefore := obj_get FILTER_KEYS.DATE_BEFORE filterValues in
let dateAfter := obj_get FILTER_KEYS.DATE_AFTER filterValues in
let dateFilter := EmptyString in
let dateFilter :=
  if truthyValue dateBefore
  then dateFilter ++ CONST.DATE ++ "<" ++ asString dateBefore
  else dateFilter in
let dateFilter :=
  if truthyValue dateBefore && truthyValue dateAfter then dateFilter ++ " "
  else dateFilter in
let dateFilter :=
  if truthyValue dateAfter
  then dateFilter ++ CONST.DATE ++ ">" ++ asString dateAfter
  else dateFilter in
dateFilter.

Definition buildAmountFilterQuery (filterValues : SearchAdvancedFiltersForm) : string :=
let lessThan := obj_get FILTER_KEYS.LESS_THAN filterValues in
let greaterThan := obj_get FILTER_KEYS.GREATER_THAN filterValues in
let amountFilter := EmptyString in
let amountFilter :=
  if truthyValue greaterThan
  then amountFilter ++ CONST.AMOUNT ++ ">" ++ asString greaterThan
  else amountFilter in
let amountFilter :=
  if truthyValue lessThan && truthyValue greaterThan then amountFilter ++ " "
  else amountFilter in
let amountFilter :=
  if truthyValue lessThan
  then amountFilter ++ CONST.AMOUNT ++ "<" ++ asString lessThan
  else amountFilter in
amountFilter.

(** [queryFilters.at(index - 1)?.operator === op] *)
Definition previousOperatorIs (queryFilters : list QueryFilter) (index : nat) (op : Operator) : bool :=
match nth_error queryFilters (index - 1) with
| Some previous => Operator_eqb (operator previous) op
| None => false
end.

(** The body of the loop of [buildFilterValuesString]: what the entry at
    [index] appends to [filterValueString]. *)
Definition appendFilterValue (filterName : string) (queryFilters : list QueryFilter)
  (filterValueString : string) (index : nat) (queryFilter : QueryFilter) : string :=
let delimiter := if String.eqb filterName CONST.KEYWORD then " " else "," in
if negb (index =? 0)%nat
   && ((Operator_eqb (operator queryFilter) EQUAL_TO
        && previousOperatorIs queryFilters index EQUAL_TO)
       || (Operator_eqb (operator queryFilter) NOT_EQUAL_TO
           && previousOperatorIs queryFilters index NOT_EQUAL_TO))
then filterValueString ++ delimiter ++ sanitizeSearchValue (value queryFilter)
else if String.eqb filterName CONST.KEYWORD
then filterValueString ++ delimiter ++ sanitizeSearchValue (value queryFilter)
else filterValueString ++ " " ++ filterName ++ operatorToCharMap (operator queryFilter)
       ++ sanitizeSearchValue (value queryFilter).

(** [queryFilters.forEach((queryFilter, index) => ...)] *)
Fixpoint forEachIndexed {A St : Type} (f : St -> nat -> A -> St) (index : nat) (l : list A) (s : St) : St :=
match l with
| [] => s
| x :: rest => forEachIndexed f (S index) rest (f s index x)
end.

Definition buildFilterValuesString (filterName : string) (queryFilters : list QueryFilter) : string :=
forEachIndexed (appendFilterValue filterName queryFilters) 0 queryFilters EmptyString.


(** *** The functions that read the tables of CONST and the collaborators

    The enumeration order of SYNTAX_FILTER_KEYS and of SYNTAX_ROOT_KEYS, the
    hash of UserUtils, the parser of the grammar and the directory of
    personal details are not part of the sources: they are parameters. *)
Section Functions.

(** [Object.values(CONST.SEARCH.SYNTAX_FILTER_KEYS)] in enumeration order. *)
Variable SYNTAX_FILTER_KEYS : list string.
(** The members of [CONST.SEARCH.SYNTAX_ROOT_KEYS] in enumeration order. *)
Variable SYNTAX_ROOT_KEYS : list RootKey.
(** [UserUtils.hashText] *)
Variable hashText : string -> N -> N.
(** [searchParser.parse]; [None] when it throws. The fields [inputQuery],
    [flatFilters] and [hash] of its result are not read. *)
Variable parse : string -> option SearchQueryJSON.
(** [PersonalDetailsUtils.getPersonalDetailByEmail] *)
Variable getPersonalDetailByEmail : string -> option PersonalDetails.

(** [filterArray.push(...)] for the right-hand side of one node. *)
Definition pushFilters (operator : Operator) (rhs : FilterValue)
  (filterArray : list QueryFilter) : list QueryFilter :=
match rhs with
| Scalar v => push filterArray (mkQueryFilter operator v)
| Values vs =>
    fold_left (fun filterArray element => push filterArray (mkQueryFilter operator element))
      vs filterArray
end.

(** The end of [traverse] in [getFilters], for a node whose [left] is the
    string [nodeKey]. *)
Definition recordFilter (operator : Operator) (nodeKey : string) (rhs : FilterValue)
  (filters : QueryFilters) : QueryFilters :=
if negb (existsb (String.eqb nodeKey) SYNTAX_FILTER_KEYS) then filters
else
  let filters :=
    match obj_get nodeKey filters with
    | None => obj_set nodeKey [] filters
    | Some _ => filters
    end in
  let filterArray := nullish (obj_get nodeKey filters) [] in
  obj_set nodeKey (pushFilters operator rhs filterArray) filters.

(** [traverse] of [getFilters]; [filters] is the object that the closure
    fills. *)
Fixpoint getFilters_traverse (node : ASTNode) (filters : QueryFilters) : QueryFilters :=
match node with
| KeyNode None _ _ => filters
| LeftNode None _ _ => filters
| PairNode None _ _ => filters
| KeyNode (Some operator) nodeKey rhs => recordFilter operator nodeKey rhs filters
| LeftNode (Some _) lhs _ => getFilters_traverse lhs filters
| PairNode (Some _) lhs rhs => getFilters_traverse rhs (getFilters_traverse lhs filters)
end.

Definition getFilters (queryJSON : SearchQueryJSON) : QueryFilters :=
match filters queryJSON with
| Some ast => getFilters_traverse ast []
| None => []
end.

(** [getPersonalDetailByEmail(email)?.accountID.toString() ?? email] *)
Definition accountIDOfEmail (email : string) : string :=
match getPersonalDetailByEmail email with
| Some detail => toString (accountID detail)
| None => email
end.

(** The identifiers of the cards of a bank. *)
Definition cardIDsOfBank (cardList : CardList) (bank0 : string) : list string :=
map (fun card => toString (cardID card))
  (filter (fun card => String.eqb (bank card) bank0) (obj_values cardList)).

Definition findIDFromDisplayValue (filterName : string) (filter : FilterValue)
  (cardList : CardList) (taxRates : Obj (list string)) : FilterValue :=
if String.eqb filterName CONST.FROM || String.eqb filterName CONST.TO then
  match filter with
  | Scalar email => Scalar (accountIDOfEmail email)
  | Values emails => Values (map accountIDOfEmail emails)
  end
else if String.eqb filterName CONST.TAX_RATE then
  let names := match filter with Scalar name => [name] | Values names => names end in
  Values (flat_map (fun name => nullish (obj_get name taxRates) [name]) names)
else if String.eqb filterName CONST.CARD_ID then
  match filter with
  | Scalar bank0 =>
      let ids := cardIDsOfBank cardList bank0 in
      if (0 <? length ids)%nat then Values ids else Scalar bank0
  | Values banks => Values (flat_map (cardIDsOfBank cardList) banks)
  end
else filter.

(** The comparator that [getQueryHash] sorts the filters of a key with. *)
Definition compareFilterValues (queryFilter1 queryFilter2 : QueryFilter) : Z :=
if gt_string (value queryFilter1) (value queryFilter2) then 1%Z else (-1)%Z.

(** The body of the loop of [getQueryHash] over the sorted keys. The array
    of the key is sorted in place: the sorted array is stored back into
    [flatFilters]. *)
Definition hashFilterKey (state : string * QueryFilters) (key : string) : string * QueryFilters :=
let '(orderedQuery, flatFilters) := state in
let filterValues := obj_get key flatFilters in
let sortedFilterValues := option_map (sort compareFilterValues) filterValues in
let flatFilters :=
  match sortedFilterValues with
  | Some sorted => obj_set key sorted flatFilters
  | None => flatFilters
  end in
(orderedQuery ++ " " ++ buildFilterValuesString key (nullish sortedFilterValues []),
 flatFilters).

(** The string that [getQueryHash] hashes, with the filters as the loop
    leaves them. *)
Definition orderedQueryOf (query : SearchQueryJSON) : string * QueryFilters :=
let orderedQuery := EmptyString in
let orderedQuery :=
  if truthy_opt (policyID query)
  then orderedQuery ++ rootKeyName POLICY_ID ++ ":" ++ nullish (policyID query) EmptyString ++ " "
  else orderedQuery in
let orderedQuery := orderedQuery ++ rootKeyName TYPE ++ ":" ++ type query in
let orderedQuery := orderedQuery ++ " " ++ rootKeyName STATUS ++ ":" ++ status query in
let orderedQuery := orderedQuery ++ " " ++ rootKeyName SORT_BY ++ ":" ++ sortBy query in
let orderedQuery := orderedQuery ++ " " ++ rootKeyName SORT_ORDER ++ ":" ++ sortOrder query in
fold_left hashFilterKey
  (sort defaultCompare (obj_keys (flatFilters query)))
  (orderedQuery, flatFilters query).

(** [getQueryHash(query)]: the hash, and [query] as the call leaves it. *)
Definition getQueryHash (query : SearchQueryJSON) : N * SearchQueryJSON :=
let '(orderedQuery, flatFilters) := orderedQueryOf query in
(hashText orderedQuery (2 ^ 32)%N, set_flatFilters query flatFilters).

(** [buildSearchQueryJSON(query)]: [None] is the [undefined] that the
    function returns after it has caught and logged an exception. *)
Definition buildSearchQueryJSON (query : string) : option SearchQueryJSON :=
match parse query with
| None => None
| Some result =>
    let flatFilters := getFilters result in
    let result := set_inputQuery result query in
    let result := set_flatFilters result flatFilters in
    let '(h, result) := getQueryHash result in
    let result := set_hash result h in
    Some result
end.

(** The first loop of [buildSearchQueryString]. *)
Definition pushRootKey (queryJSON defaultQueryJSON : option SearchQueryJSON)
  (queryParts : list string) (key : RootKey) : list string :=
let existingFieldValue :=
  match queryJSON with Some q => rootField key q | None => None end in
let queryFieldValue :=
  nullish_opt existingFieldValue
    (match defaultQueryJSON with Some d => rootField key d | None => None end) in
if truthy_opt queryFieldValue
then push queryParts (rootKeyName key ++ ":" ++ nullish queryFieldValue EmptyString)
else queryParts.

(** The second loop of [buildSearchQueryString]. *)
Definition pushFilterKey (filters : QueryFilters) (queryParts : list string)
  (filterKey : string) : list string :=
match obj_get filterKey filters with
| Some queryFilter => push queryParts (buildFilterValuesString filterKey queryFilter)
| None => queryParts
end.

Definition buildSearchQueryString (queryJSON : option SearchQueryJSON) : string :=
let queryParts := [] in
let defaultQueryJSON := buildSearchQueryJSON EmptyString in
let queryParts := fold_left (pushRootKey queryJSON defaultQueryJSON) SYNTAX_ROOT_KEYS queryParts in
match queryJSON with
| None => join " " queryParts
| Some q =>
    let filters := flatFilters q in
    let queryParts := fold_left (pushFilterKey filters) SYNTAX_FILTER_KEYS queryParts in
    join " " queryParts
end.

(** [[...new Set(values)]]: the values without repetition, each at the
    place of its first occurrence. *)
Definition uniqueValues (values : list string) : list string :=
fold_left
  (fun kept v => if existsb (String.eqb v) kept then kept else push kept v)
  values [].

(** [Object.keys(SYNTAX_FILTER_KEYS).find(key => SYNTAX_FILTER_KEYS[key] ===
    filterKey)], read through [SYNTAX_FILTER_KEYS[keyInCorrectForm]]: the
    value of the member whose value is [filterKey], when there is one. *)
Definition keyInCorrectForm (filterKey : string) : option string :=
find (fun v => String.eqb v filterKey) SYNTAX_FILTER_KEYS.

Definition isTextFormKey (filterKey : string) : bool :=
String.eqb filterKey FILTER_KEYS.MERCHANT
|| String.eqb filterKey FILTER_KEYS.DESCRIPTION
|| String.eqb filterKey FILTER_KEYS.REPORT_ID.

Definition isListFormKey (filterKey : string) : bool :=
String.eqb filterKey FILTER_KEYS.CATEGORY
|| String.eqb filterKey FILTER_KEYS.CARD_ID
|| String.eqb filterKey FILTER_KEYS.TAX_RATE
|| String.eqb filterKey FILTER_KEYS.EXPENSE_TYPE
|| String.eqb filterKey FILTER_KEYS.TAG
|| String.eqb filterKey FILTER_KEYS.CURRENCY
|| String.eqb filterKey FILTER_KEYS.FROM
|| String.eqb filterKey FILTER_KEYS.TO
|| String.eqb filterKey FILTER_KEYS.IN.

(** The third case of the callback of [map] in
    [buildQueryStringFromFilterFormValues], and its final [undefined]. *)
Definition mapListFilter (filterKey : string) (filterValue : FormValue) : option string :=
match filterValue with
| Items l =>
    if isListFormKey filterKey && (0 <? length l)%nat then
      let filterValueArray := uniqueValues l in
      match keyInCorrectForm filterKey with
      | Some key => Some (key ++ ":" ++ join "," (map sanitizeSearchValue filterValueArray))
      | None => None
      end
    else None
| Text _ => None
end.

(** The callback of [map] in [buildQueryStringFromFilterFormValues]. The
    outer [None] is the TypeError of [split] on a keyword that is an array;
    the inner one is [undefined]. *)
Definition mapFilter (entry : string * FormValue) : option (option string) :=
let '(filterKey, filterValue) := entry in
match
  (if isTextFormKey filterKey && truthyValue (Some filterValue)
   then option_map
          (fun key => key ++ ":" ++ sanitizeSearchValue (asString (Some filterValue)))
          (keyInCorrectForm filterKey)
   else None)
with
| Some clause => Some (Some clause)
| None =>
    if String.eqb filterKey FILTER_KEYS.KEYWORD && truthyValue (Some filterValue) then
      match filterValue with
      | Text s => Some (Some (join " " (map sanitizeSearchValue (split " " s))))
      | Items _ => None
      end
    else Some (mapListFilter filterKey filterValue)
end.

(** [entries.map(callback)], stopping at the first exception. *)
Fixpoint mapEntries (entries : list (string * FormValue)) : option (list (option string)) :=
match entries with
| [] => Some []
| entry :: rest =>
    match mapFilter entry with
    | None => None
    | Some mapped =>
        match mapEntries rest with
        | None => None
        | Some others => Some (mapped :: others)
        end
    end
end.

(** [.filter((filter) => !!filter)] *)
Definition keepTruthy (mapped : list (option string)) : list string :=
flat_map (fun m => if truthy_opt m then [nullish m EmptyString] else []) mapped.

(** [buildQueryStringFromFilterFormValues(filterValues)]; [None] when the
    function throws. *)
Definition buildQueryStringFromFilterFormValues (filterValues : SearchAdvancedFiltersForm)
  : option string :=
let type := obj_get "type" filterValues in
let status := obj_get "status" filterValues in
let policyID := obj_get "policyID" filterValues in
let otherFilters :=
  filter (fun entry => negb (String.eqb (fst entry) "type"
                             || String.eqb (fst entry) "status"
                             || String.eqb (fst entry) "policyID"))
    filterValues in
let filtersString : list string := [] in
let filtersString :=
  push filtersString (rootKeyName SORT_BY ++ ":" ++ CONST.TABLE_COLUMNS_DATE) in
let filtersString :=
  push filtersString (rootKeyName SORT_ORDER ++ ":" ++ CONST.SORT_ORDER_DESC) in
let filtersString :=
  if truthyValue type
  then push filtersString (rootKeyName TYPE ++ ":" ++ sanitizeSearchValue (asString type))
  else filtersString in
let filtersString :=
  if truthyValue status
  then push filtersString (rootKeyName STATUS ++ ":" ++ sanitizeSearchValue (asString status))
  else filtersString in
let filtersString :=
  if truthyValue policyID
  then push filtersString
         (rootKeyName POLICY_ID ++ ":" ++ sanitizeSearchValue (asString policyID))
  else filtersString in
match mapEntries otherFilters with
| None => None
| Some mapped =>
    let mappedFilters := keepTruthy mapped in
    let filtersString := pushAll filtersString mappedFilters in
    let dateFilter := buildDateFilterQuery filterValues in
    let filtersString := push filtersString dateFilter in
    let amountFilter := buildAmountFilterQuery filterValues in
    let filtersString := push filtersString amountFilter in
    Some (trim (join " " filtersString))
end.

Definition getPolicyIDFromSearchQuery (queryJSON : SearchQueryJSON) : option string :=
let policyIDFilter := policyID queryJSON in
if negb (truthy_opt policyIDFilter) then None
else hd_error (split "," (nullish policyIDFilter EmptyString)).

Definition isCannedSearchQuery (queryJSON : SearchQueryJSON) : bool :=
match filters queryJSON with
| Some _ => false
| None => true
end.

(** [traverse] of [standardizeQueryJSON], on the copy of the tree: the
    result is the tree as the traversal leaves it. *)
Fixpoint standardizeQueryJSON_traverse (cardList : CardList) (taxRates : Obj (list string))
  (node : ASTNode) : ASTNode :=
match node with
| KeyNode None _ _ => node
| LeftNode None _ _ => node
| PairNode None _ _ => node
| KeyNode (Some operator) key rhs =>
    KeyNode (Some operator) key (findIDFromDisplayValue key rhs cardList taxRates)
| LeftNode (Some operator) lhs rhs =>
    LeftNode (Some operator) (standardizeQueryJSON_traverse cardList taxRates lhs) rhs
| PairNode (Some operator) lhs rhs =>
    PairNode (Some operator)
      (standardizeQueryJSON_traverse cardList taxRates lhs)
      (standardizeQueryJSON_traverse cardList taxRates rhs)
end.

(** [standardizeQueryJSON]: [cloneDeep] makes the result a value of its
    own, and the argument stays as it is. *)
Definition standardizeQueryJSON (queryJSON : SearchQueryJSON) (cardList : CardList)
  (taxRates : Obj (list string)) : SearchQueryJSON :=
let standardQuery := queryJSON in
let standardQuery :=
  match filters standardQuery with
  | Some ast =>
      set_filters standardQuery (Some (standardizeQueryJSON_traverse cardList taxRates ast))
  | None => standardQuery
  end in
set_flatFilters standardQuery (getFilters standardQuery).

End Functions.

(** ** Tables and inputs for the worked cases *)

(** Modelled from the spec: the filter keys in the order in which the data
    model lists them, and the root keys in the order of the contract of the
    serializer. The theorems below hold for every enumeration; the worked
    cases use this one. *)
Definition SYNTAX_FILTER_KEYS_sample : list string :=
[ "date"; "amount"; "merchant"; "category"; "tag"; "currency"; "cardID"; "taxRate";
  "from"; "to"; "in"; "description"; "reportID"; "keyword"; "expenseType" ].

Definition SYNTAX_ROOT_KEYS_sample : list RootKey :=
[ POLICY_ID; TYPE; STATUS; SORT_BY; SORT_ORDER ].

(** Modelled from the spec: UserUtils.hashText, a polynomial rolling hash
    over the code units, reduced modulo the range. *)
Definition hashText_sample (text : string) (range : N) : N :=
(fold_left (fun h c => (h * 31 + N_of_ascii c)%N) (list_ascii_of_string text) 0%N
 mod range)%N.

(** The query [type:expense status:all sortBy:date sortOrder:desc] with the
    given tree and flattened filters. *)
Definition expenseQuery (ast : option ASTNode) (flat : QueryFilters) : SearchQueryJSON :=
mkSearchQueryJSON EmptyString 0 "expense" "all" "date" "desc" None ast flat.

(** The tree of the query string [merchant:b,a]. *)
Definition merchantTree : ASTNode :=
KeyNode (Some EQUAL_TO) "merchant" (Values ["b"; "a"]).

(** A stand-in for the grammar on two inputs: the empty query gives the
    default root fields, [merchant:b,a] gives one equality node with a
    list, and the parser throws on everything else. *)
Definition parse_sample (query : string) : option SearchQueryJSON :=
if String.eqb query EmptyString then Some (expenseQuery None [])
else if String.eqb query "merchant:b,a" then Some (expenseQuery (Some merchantTree) [])
else None.

(** A directory of personal details with one login. *)
Definition getPersonalDetailByEmail_sample (email : string) : option PersonalDetails :=
if String.eqb email "ann@example.com" then Some (mkPersonalDetails 11) else None.

(** Two cards; the bank of the first is spelled like the identifier of the
    second. *)
Definition cardList_clash : CardList :=
[ ("5", mkCard "7" 5); ("7", mkCard "chase" 7) ].

(** A card directory in which no bank is spelled like an identifier. *)
Definition cardList_sample : CardList :=
[ ("5", mkCard "vcf" 5); ("7", mkCard "chase" 7) ].

Definition taxRates_sample : Obj (list string) :=
[ ("VAT", ["id_TAX_RATE_1"; "id_TAX_RATE_2"]) ].

(** Two queries that differ in the order of the two entries of one key. *)
Definition tieQuery1 : SearchQueryJSON :=
expenseQuery None
  [ ("merchant", [mkQueryFilter EQUAL_TO "a"; mkQueryFilter NOT_EQUAL_TO "a"]) ].

Definition tieQuery2 : SearchQueryJSON :=
expenseQuery None
  [ ("merchant", [mkQueryFilter NOT_EQUAL_TO "a"; mkQueryFilter EQUAL_TO "a"]) ].

(** A query whose merchant filter lists [b] before [a]. *)
Definition unsortedQuery : SearchQueryJSON :=
expenseQuery (Some merchantTree)
  [ ("merchant", [mkQueryFilter EQUAL_TO "b"; mkQueryFilter EQUAL_TO "a"]) ].

(** A query with every root field and one merchant filter. *)
Definition merchantQuery : SearchQueryJSON :=
mkSearchQueryJSON EmptyString 0 "expense" "all" "date" "desc" (Some "p1") None
  [ ("merchant", [mkQueryFilter EQUAL_TO "a"]) ].

(** A form with a lower bound on the amount and nothing else. *)
Definition amountOnlyForm : SearchAdvancedFiltersForm :=
[ ("greaterThan", Text "5") ].



(** A string has two spaces in a row. *)
Fixpoint hasSpaceRun (s : string) : bool :=
match s with
| String " " ((String " " _) as rest) => true
| String _ rest => hasSpaceRun rest
| EmptyString => false
end.

(** ** The properties in the words of the specification *)

(** The safe set of the Value Sanitizer: the letters, the digits and
    thirteen marks. *)
Definition SafeChar (c : ascii) : Prop :=
(nat_of_ascii "A" <= nat_of_ascii c <= nat_of_ascii "Z")%nat
\/ (nat_of_ascii "a" <= nat_of_ascii c <= nat_of_ascii "z")%nat
\/ (nat_of_ascii "0" <= nat_of_ascii c <= nat_of_ascii "9")%nat
\/ In c ["_"; "@"; "."; "/"; "#"; "&"; "+"; "-"; "\"; "'"; ";"; ","; "034"]%char.

(** No character of the string is a comma. *)
Definition noComma (s : string) : Prop :=
forall c, In c (list_ascii_of_string s) -> c <> ","%char.

(** The merge rule of the serializer: there is a previous entry, and it and
    the current one both have the operator eq or both have neq. *)
Definition mergesWithPrevious (previous : option QueryFilter) (current : QueryFilter) : bool :=
match previous with
| None => false
| Some p =>
    (Operator_eqb (operator current) EQUAL_TO && Operator_eqb (operator p) EQUAL_TO)
    || (Operator_eqb (operator current) NOT_EQUAL_TO && Operator_eqb (operator p) NOT_EQUAL_TO)
end.

(** What one entry contributes to the fragment of its key: under the
    keyword key a space and the value; under another key a comma and the
    value when the entry merges, and else a space, the key, the token of
    the operator and the value. *)
Definition clauseOf (filterName : string) (previous : option QueryFilter)
  (current : QueryFilter) : string :=
if String.eqb filterName CONST.KEYWORD then " " ++ sanitizeSearchValue (value current)
else if mergesWithPrevious previous current then "," ++ sanitizeSearchValue (value current)
else " " ++ filterName ++ operatorToCharMap (operator current)
       ++ sanitizeSearchValue (value current).

Fixpoint clausesOf (filterName : string) (previous : option QueryFilter)
  (queryFilters : list QueryFilter) : list string :=
match queryFilters with
| [] => []
| current :: rest =>
    clauseOf filterName previous current :: clausesOf filterName (Some current) rest
end.

(** The clause of a root key: the key, a colon and the value of the field,
    or of the default query when the field is undefined; nothing when that
    value is undefined or empty. *)
Definition rootClause (queryJSON defaultQueryJSON : option SearchQueryJSON)
  (key : RootKey) : list string :=
let fieldValue :=
  nullish_opt (match queryJSON with Some q => rootField key q | None => None end)
              (match defaultQueryJSON with Some d => rootField key d | None => None end) in
if truthy_opt fieldValue then [rootKeyName key ++ ":" ++ nullish fieldValue EmptyString]
else [].

(** The fragment of a filter key: nothing when the key has no filters. *)
Definition filterFragment (filters : QueryFilters) (filterKey : string) : list string :=
match obj_get filterKey filters with
| Some queryFilter => [buildFilterValuesString filterKey queryFilter]
| None => []
end.

(** The range fragment of two bounds: the first clause, a space when both
    are present, the second clause. *)
Definition rangeFragment (first second : string) (firstBound secondBound : option FormValue)
  : string :=
match truthyValue firstBound, truthyValue secondBound with
| true, true => first ++ asString firstBound ++ " " ++ second ++ asString secondBound
| true, false => first ++ asString firstBound
| false, true => second ++ asString secondBound
| false, false => EmptyString
end.

(** The right-hand elements of a node: a string is one element, an array
    gives its elements in order. *)
Definition elementsOf (rhs : FilterValue) : list string :=
match rhs with
| Scalar v => [v]
| Values vs => vs
end.

(** The contributions of a tree in the order of the traversal: first those
    of [left] when it is a node, then those of [right] when it is a node,
    then the node's own, which are, when [left] is a recognized filter key,
    one entry for each right-hand element. A node without operator
    contributes nothing, and neither does what is below it. *)
Fixpoint contributions (filterKeys : list string) (node : ASTNode)
  : list (string * list QueryFilter) :=
match node with
| KeyNode (Some operator) key rhs =>
    if existsb (String.eqb key) filterKeys
    then [(key, map (mkQueryFilter operator) (elementsOf rhs))]
    else []
| LeftNode (Some _) lhs _ => contributions filterKeys lhs
| PairNode (Some _) lhs rhs =>
    (contributions filterKeys lhs ++ contributions filterKeys rhs)%list
| _ => []
end.

(** The entries that a sequence of contributions gives to a key, in
    order. *)
Definition entriesUnder (key : string) (cs : list (string * list QueryFilter))
  : list QueryFilter :=
flat_map (fun c => if String.eqb (fst c) key then snd c else []) cs.

(** A key has a contribution, possibly without entries. *)
Definition contributes (key : string) (cs : list (string * list QueryFilter)) : bool :=
existsb (fun c => String.eqb (fst c) key) cs.

(** What the traversal leaves under a key, from what was there before. *)
Definition extended (before : option (list QueryFilter)) (key : string)
  (cs : list (string * list QueryFilter)) : option (list QueryFilter) :=
match before with
| Some entries => Some (entries ++ entriesUnder key cs)%list
| None => if contributes key cs then Some (entriesUnder key cs) else None
end.

(** A property of every right-hand value of the tree, with the key it
    stands under. *)
Fixpoint ValuesOf (P : string -> string -> Prop) (node : ASTNode) : Prop :=
match node with
| KeyNode _ key rhs => Forall (P key) (elementsOf rhs)
| LeftNode _ lhs _ => ValuesOf P lhs
| PairNode _ lhs rhs => ValuesOf P lhs /\ ValuesOf P rhs
end.

(** The same for a property that is decided. *)
Fixpoint valuesOf (p : string -> string -> bool) (node : ASTNode) : bool :=
match node with
| KeyNode _ key rhs => forallb (p key) (elementsOf rhs)
| LeftNode _ lhs _ => valuesOf p lhs
| PairNode _ lhs rhs => valuesOf p lhs && valuesOf p rhs
end.

Definition queryValuesOf (p : string -> string -> bool) (queryJSON : SearchQueryJSON) : bool :=
match filters queryJSON with
| Some ast => valuesOf p ast
| None => true
end.

(** A value is a canonical identifier for its key: under from and to the
    account identifier of a personal detail, under the card key the
    identifier of a card, under the tax-rate key an identifier of a tax
    rate. *)
Definition CanonicalValue (getPersonalDetailByEmail : string -> option PersonalDetails)
  (cardList : CardList) (taxRates : Obj (list string)) (key v : string) : Prop :=
(key = CONST.FROM \/ key = CONST.TO ->
   exists email detail,
     getPersonalDetailByEmail email = Some detail /\ toString (accountID detail) = v)
/\ (key = CONST.CARD_ID ->
      exists card, In card (obj_values cardList) /\ toString (cardID card) = v)
/\ (key = CONST.TAX_RATE ->
      exists name ids, obj_get name taxRates = Some ids /\ In v ids).

(** A value is no display value for its key: under from and to no personal
    detail has it as login, under the tax-rate key no tax rate has it as
    name, under the card key no card has it as bank. *)
Definition notDisplayValue (getPersonalDetailByEmail : string -> option PersonalDetails)
  (cardList : CardList) (taxRates : Obj (list string)) (key v : string) : bool :=
if String.eqb key CONST.FROM || String.eqb key CONST.TO then
  match getPersonalDetailByEmail v with None => true | Some _ => false end
else if String.eqb key CONST.TAX_RATE then
  match obj_get v taxRates with None => true | Some _ => false end
else if String.eqb key CONST.CARD_ID then
  match cardIDsOfBank cardList v with [] => true | _ :: _ => false end
else true.

(** A query about the card whose identifier is 7. *)
Definition cardQuery : SearchQueryJSON :=
expenseQuery (Some (KeyNode (Some EQUAL_TO) "cardID" (Scalar "7"))) [].

(** A query whose values are identifiers: an account, two cards and a tax
    rate. *)
Definition identifiersQuery : SearchQueryJSON :=
expenseQuery
  (Some (PairNode (Some AND)
           (KeyNode (Some EQUAL_TO) "from" (Scalar "11"))
           (PairNode (Some AND)
              (KeyNode (Some EQUAL_TO) "cardID" (Values ["5"; "7"]))
              (KeyNode (Some EQUAL_TO) "taxRate" (Scalar "id_TAX_RATE_1")))))
  [].

(** Entries with the same value are the same entry: no two entries of
    the sequence share a value under different operators. *)
Definition tieFree (queryFilters : list QueryFilter) : Prop :=
forall x y, In x queryFilters -> In y queryFilters -> value x = value y -> x = y.

(** Two flattened-filter objects hold the same keys, in some order, and
    under each key the same entries, in some order. *)
Definition sameFilters (f1 f2 : QueryFilters) : Prop :=
Permutation (obj_keys f1) (obj_keys f2)
/\ forall key,
     match obj_get key f1, obj_get key f2 with
     | Some a, Some b => Permutation a b
     | None, None => True
     | _, _ => False
     end.

(** Two queries have the same root fields. *)
Definition sameRootFields (q1 q2 : SearchQueryJSON) : Prop :=
type q1 = type q2 /\ status q1 = status q2 /\ sortBy q1 = sortBy q2
/\ sortOrder q1 = sortOrder q2 /\ policyID q1 = policyID q2.

(** * Further functions of the module *)

(** [kept] with [key] added at the end unless it is there. *)
Definition addKey (kept : list string) (key : string) : list string :=
if existsb (String.eqb key) kept then kept else push kept key.

(** Modelled from the spec: the default data type and status of a canned
    query, CONST.SEARCH.DATA_TYPES.EXPENSE and CONST.SEARCH.STATUS.EXPENSE.ALL. *)
Module DEFAULTS.
Definition DATA_TYPES_EXPENSE : string := "expense".
Definition STATUS_EXPENSE_ALL : string := "all".
End DEFAULTS.

Section Canned.

Variable SYNTAX_FILTER_KEYS : list string.
Variable SYNTAX_ROOT_KEYS : list RootKey.
Variable hashText : string -> N -> N.
Variable parse : string -> option SearchQueryJSON.

(** The query string that [buildCannedSearchQuery] parses; an argument
    that is undefined takes its default. *)
Definition cannedQueryString (type status policyID : option string) : string :=
let type := nullish type DEFAULTS.DATA_TYPES_EXPENSE in
let status := nullish status DEFAULTS.STATUS_EXPENSE_ALL in
if truthy_opt policyID
then "type:" ++ type ++ " status:" ++ status ++ " policyID:" ++ nullish policyID EmptyString
else "type:" ++ type ++ " status:" ++ status.

Definition buildCannedSearchQuery (type status policyID : option string) : string :=
let queryString := cannedQueryString type status policyID in
let normalizedQueryJSON :=
  buildSearchQueryJSON SYNTAX_FILTER_KEYS hashText parse queryString in
buildSearchQueryString SYNTAX_FILTER_KEYS SYNTAX_ROOT_KEYS hashText parse normalizedQueryJSON.

End Canned.

(** The root fields of a query, when there is one. *)
Definition rootFieldsOf (queryJSON : option SearchQueryJSON) (key : RootKey) : option string :=
match queryJSON with
| Some q => rootField key q
| None => None
end.

(** ** White space at the ends of a string *)

(** The last character of a string. *)
Fixpoint lastChar (s : string) : option ascii :=
match s with
| EmptyString => None
| String c EmptyString => Some c
| String _ rest => lastChar rest
end.

(** The string ends with white space. *)
Definition endsWithWhiteSpace (s : string) : bool :=
match lastChar s with
| Some c => isWhiteSpace c
| None => false
end.

(** [trimStart] on the list of the characters. *)
Fixpoint trimStartChars (l : list ascii) : list ascii :=
match l with
| [] => []
| c :: rest => if isWhiteSpace c then trimStartChars rest else l
end.

(** ** The display formatter *)

(** Modelled from the spec: further members of
    CONST.SEARCH.SYNTAX_FILTER_KEYS that the source names. *)
Module SYNTAX.
Definition IN : string := "in".
Definition MERCHANT : string := "merchant".
Definition DESCRIPTION : string := "description".
Definition REPORT_ID : string := "reportID".
Definition EXPENSE_TYPE : string := "expenseType".
Definition CURRENCY : string := "currency".
Definition TAG : string := "tag".
Definition CATEGORY : string := "category".
End SYNTAX.

(** A personal detail of the directory that is keyed by account: its login
    may be undefined, or empty. *)
Record PersonalDetail : Type := mkPersonalDetail {
  login : option string
}.

Definition PersonalDetailsList : Type := Obj PersonalDetail.

(** [a || b] on strings *)
Definition orElse (a : option string) (b : string) : string :=
if truthy_opt a then nullish a EmptyString else b.

Section Display.

(** The reports, the prefix of their keys, ONYXKEYS.COLLECTION.REPORT, and
    [ReportUtils.getReportName] are not part of the sources. *)
Variable Report : Type.
Variable COLLECTION_REPORT : string.
Variable getReportName : option Report -> string.

Definition getDisplayValue (filterName filter : string)
  (personalDetails : PersonalDetailsList) (cardList : CardList) (reports : Obj Report)
  : string :=
if String.eqb filterName CONST.FROM || String.eqb filterName CONST.TO then
  orElse (match obj_get filter personalDetails with
          | Some detail => login detail
          | None => None
          end) filter
else if String.eqb filterName CONST.CARD_ID then
  orElse (option_map bank (obj_get filter cardList)) filter
else if String.eqb filterName SYNTAX.IN then
  orElse (Some (getReportName (obj_get (COLLECTION_REPORT ++ filter) reports))) filter
else filter.

(** The names of the tax rates whose identifiers include [id], or [id]
    when there is none. *)
Definition taxRateNamesOf (TaxRates : Obj (list string)) (id : string) : list string :=
let taxRate :=
  map fst (filter (fun entry => existsb (String.eqb id) (snd entry)) TaxRates) in
if (0 <? length taxRate)%nat then taxRate else [id].

(** The filters of a key as [buildUserReadableQueryString] displays
    them. *)
Definition displayQueryFilters (key : string) (queryFilter : list QueryFilter)
  (PersonalDetails : PersonalDetailsList) (cardList : CardList) (reports : Obj Report)
  (TaxRates : Obj (list string)) : list QueryFilter :=
if String.eqb key CONST.TAX_RATE then
  let taxRateIDs := map value queryFilter in
  let taxRateNames := flat_map (taxRateNamesOf TaxRates) taxRateIDs in
  map (fun taxRate =>
         mkQueryFilter (nullish (option_map operator (hd_error queryFilter)) AND) taxRate)
      taxRateNames
else
  map (fun filter =>
         mkQueryFilter (operator filter)
           (getDisplayValue key (value filter) PersonalDetails cardList reports))
      queryFilter.

Definition buildUserReadableQueryString (queryJSON : SearchQueryJSON)
  (PersonalDetails : PersonalDetailsList) (cardList : CardList) (reports : Obj Report)
  (TaxRates : Obj (list string)) : string :=
let filters := flatFilters queryJSON in
let title := "type:" ++ type queryJSON ++ " status:" ++ status queryJSON in
fold_left
  (fun title key =>
     let queryFilter := nullish (obj_get key filters) [] in
     title ++ buildFilterValuesString key
                (displayQueryFilters key queryFilter PersonalDetails cardList reports TaxRates))
  (obj_keys filters) title.

End Display.

(** ** The form of a query *)

(** A category of a policy. *)
Record PolicyCategory : Type := mkPolicyCategory {
  name : string
}.

(** The form that [buildFilterFormValuesFromQuery] fills: a field that was
    assigned [undefined] is there, with no value. *)
Definition PartialForm : Type := Obj (option FormValue).

(** [array.includes(x)] *)
Definition includes (array : list string) (x : string) : bool :=
existsb (String.eqb x) array.

(** [s.includes(' ')] *)
Fixpoint includesSpace (s : string) : bool :=
match s with
| EmptyString => false
| String c rest => Ascii.eqb c " " || includesSpace rest
end.

Section FormFromQuery.

(** The collaborators and tables that are not part of the sources: the tag
    lists of a policy with [PolicyUtils.getTagNamesFromTagsLists], the two
    validators, the tables of CONST.SEARCH and the prefixes of the keys of
    the collections. A collection is the object of its defined members; an
    undefined collection is the empty object. *)
Variable PolicyTagLists : Type.
Variable emptyTagLists : PolicyTagLists.
Variable getTagNamesFromTagsLists : PolicyTagLists -> list string.
Variable Currency : Type.
Variable Report : Type.
Variable isValidDate : string -> bool.
Variable validateAmount : string -> nat -> bool.
Variable TRANSACTION_TYPE : list string.
Variable DATA_TYPES : Obj string.
Variable STATUS : Obj (Obj string).
Variable EMPTY_VALUE : string.
Variable COLLECTION_REPORT : string.
Variable COLLECTION_POLICY_TAGS : string.
Variable COLLECTION_POLICY_CATEGORIES : string.

(** The names of the tags against which the tag filter is checked. *)
Definition tagNames (policyID : option string) (policyTags : Obj PolicyTagLists)
  : list string :=
let tags :=
  if truthy_opt policyID
  then getTagNamesFromTagsLists
         (nullish (obj_get (COLLECTION_POLICY_TAGS ++ nullish policyID EmptyString) policyTags)
            emptyTagLists)
  else flat_map getTagNamesFromTagsLists (obj_values policyTags) in
push tags EMPTY_VALUE.

(** The names of the categories against which the category filter is
    checked. *)
Definition categoryNames (policyID : option string)
  (policyCategories : Obj (Obj PolicyCategory)) : list string :=
let categories :=
  if truthy_opt policyID
  then map name
         (obj_values
            (nullish
               (obj_get (COLLECTION_POLICY_CATEGORIES ++ nullish policyID EmptyString)
                  policyCategories)
               []))
  else flat_map (fun item => map name (obj_values item)) (obj_values policyCategories) in
push categories EMPTY_VALUE.

(** [filters[filterKey]?.find(...)?.value.toString()] for a bound: the value
    of the first entry with the operator that passes the validator. *)
Definition boundOf (entries : option (list QueryFilter)) (op : Operator)
  (valid : string -> bool) : option FormValue :=
match entries with
| Some l =>
    option_map (fun filter => Text (value filter))
      (find (fun filter => Operator_eqb (operator filter) op && valid (value filter)) l)
| None => None
end.

(** The body of the loop of [buildFilterFormValuesFromQuery]. *)
Definition projectFilter (queryJSON : SearchQueryJSON)
  (policyCategories : Obj (Obj PolicyCategory)) (policyTags : Obj PolicyTagLists)
  (currencyList : Obj Currency) (personalDetails : PersonalDetailsList)
  (cardList : CardList) (reports : Obj Report) (taxRates : Obj (list string))
  (filtersForm : PartialForm) (filterKey : string) : PartialForm :=
let filters := flatFilters queryJSON in
let policyID := policyID queryJSON in
let entries := obj_get filterKey filters in
let filtersForm :=
  if String.eqb filterKey SYNTAX.REPORT_ID || String.eqb filterKey SYNTAX.MERCHANT
     || String.eqb filterKey SYNTAX.DESCRIPTION
  then obj_set filterKey
         (match entries with
          | Some (first :: _) => Some (Text (value first))
          | _ => None
          end) filtersForm
  else filtersForm in
let filtersForm :=
  if String.eqb filterKey SYNTAX.EXPENSE_TYPE
  then obj_set filterKey
         (option_map (fun l => Items (filter (includes TRANSACTION_TYPE) (map value l)))
            entries) filtersForm
  else filtersForm in
let filtersForm :=
  if String.eqb filterKey CONST.CARD_ID
  then obj_set filterKey
         (option_map (fun l => Items (filter (includes (obj_keys cardList)) (map value l)))
            entries) filtersForm
  else filtersForm in
let filtersForm :=
  if String.eqb filterKey CONST.TAX_RATE
  then obj_set filterKey
         (option_map
            (fun l => Items (filter (includes (concat (obj_values taxRates))) (map value l)))
            entries) filtersForm
  else filtersForm in
let filtersForm :=
  if String.eqb filterKey SYNTAX.IN
  then obj_set filterKey
         (option_map
            (fun l =>
               Items (filter
                        (fun id =>
                           match obj_get (COLLECTION_REPORT ++ id) reports with
                           | Some _ => true
                           | None => false
                           end)
                        (map value l)))
            entries) filtersForm
  else filtersForm in
let filtersForm :=
  if String.eqb filterKey CONST.FROM || String.eqb filterKey CONST.TO
  then obj_set filterKey
         (option_map
            (fun l => Items (filter (includes (obj_keys personalDetails)) (map value l)))
            entries) filtersForm
  else filtersForm in
let filtersForm :=
  if String.eqb filterKey SYNTAX.CURRENCY
  then obj_set filterKey
         (option_map
            (fun l =>
               Items (map value
                        (filter (fun currency => includes (obj_keys currencyList) (value currency))
                           l)))
            entries) filtersForm
  else filtersForm in
let filtersForm :=
  if String.eqb filterKey SYNTAX.TAG
  then
    let tags := tagNames policyID policyTags in
    obj_set filterKey
      (option_map (fun l => Items (filter (includes tags) (map value l))) entries) filtersForm
  else filtersForm in
let filtersForm :=
  if String.eqb filterKey SYNTAX.CATEGORY
  then
    let categories := categoryNames policyID policyCategories in
    obj_set filterKey
      (option_map (fun l => Items (filter (includes categories) (map value l))) entries)
      filtersForm
  else filtersForm in
let filtersForm :=
  if String.eqb filterKey CONST.KEYWORD
  then obj_set filterKey
         (option_map
            (fun l =>
               Text (join " "
                       (map (fun filter =>
                               if includesSpace filter then quote ++ filter ++ quote
                               else filter)
                          (map value l))))
            entries) filtersForm
  else filtersForm in
let filtersForm :=
  if String.eqb filterKey CONST.DATE
  then
    let filtersForm :=
      obj_set FILTER_KEYS.DATE_BEFORE (boundOf entries LOWER_THAN isValidDate) filtersForm in
    obj_set FILTER_KEYS.DATE_AFTER (boundOf entries GREATER_THAN isValidDate) filtersForm
  else filtersForm in
let filtersForm :=
  if String.eqb filterKey CONST.AMOUNT
  then
    let filtersForm :=
      obj_set FILTER_KEYS.LESS_THAN
        (boundOf entries LOWER_THAN (fun v => validateAmount v 2)) filtersForm in
    obj_set FILTER_KEYS.GREATER_THAN
      (boundOf entries GREATER_THAN (fun v => validateAmount v 2)) filtersForm
  else filtersForm in
filtersForm.

Definition buildFilterFormValuesFromQuery (queryJSON : SearchQueryJSON)
  (policyCategories : Obj (Obj PolicyCategory)) (policyTags : Obj PolicyTagLists)
  (currencyList : Obj Currency) (personalDetails : PersonalDetailsList)
  (cardList : CardList) (reports : Obj Report) (taxRates : Obj (list string))
  : PartialForm :=
let filters := flatFilters queryJSON in
let filterKeys := obj_keys filters in
let filtersForm : PartialForm := [] in
let filtersForm :=
  fold_left
    (projectFilter queryJSON policyCategories policyTags currencyList personalDetails
       cardList reports taxRates)
    filterKeys filtersForm in
let found := find (fun entry => String.eqb (snd entry) (type queryJSON)) DATA_TYPES in
let typeKey := nullish (option_map fst found) EmptyString in
let typeValue := option_map snd found in
let filtersForm :=
  obj_set FILTER_KEYS.TYPE
    (Some (Text (if truthy_opt typeValue then type queryJSON
                 else DEFAULTS.DATA_TYPES_EXPENSE)))
    filtersForm in
let statusKey :=
  option_map fst
    (find (fun entry => includes (obj_values (snd entry)) (status queryJSON)) STATUS) in
let filtersForm :=
  obj_set FILTER_KEYS.STATUS
    (Some (Text (if match statusKey with
                    | Some k => String.eqb typeKey k
                    | None => false
                    end
                 then status queryJSON
                 else DEFAULTS.STATUS_EXPENSE_ALL)))
    filtersForm in
let filtersForm :=
  if truthy_opt (policyID queryJSON)
  then obj_set FILTER_KEYS.POLICY_ID
         (Some (Text (nullish (policyID queryJSON) EmptyString))) filtersForm
  else filtersForm in
filtersForm.

End FormFromQuery.

(** The entry of a key that gives a bound of the form: the first entry with
    the operator whose value passes the validator. *)
Definition firstValidEntry (filters : QueryFilters) (key : string) (op : Operator)
  (valid : string -> bool) (d : string) : Prop :=
exists before after,
  obj_get key filters = Some (before ++ mkQueryFilter op d :: after)%list
  /\ valid d = true
  /\ Forall (fun filter => operator filter = op -> valid (value filter) = false) before.

(** ** Further inputs for the worked cases *)

(** A directory of personal details by account, a card and a report for
    the worked cases. *)
Definition personalDetails_sample : PersonalDetailsList :=
[ ("11", mkPersonalDetail (Some "ann@example.com")); ("12", mkPersonalDetail (Some EmptyString)) ].

Definition getReportName_sample (report : option string) : string :=
nullish report EmptyString.

Definition reports_sample : Obj string := [ ("report_42", "Trip to Rome") ].

(** A query with two tax-rate entries under different operators. *)
Definition taxRateQuery : SearchQueryJSON :=
expenseQuery None
  [ ("taxRate", [mkQueryFilter EQUAL_TO "id_TAX_RATE_1"; mkQueryFilter NOT_EQUAL_TO "other"]) ].

(** A query whose merchant and whose sender are not in the directories. *)
Definition unknownQuery : SearchQueryJSON :=
expenseQuery None
  [ ("merchant", [mkQueryFilter EQUAL_TO "Acme"]);
    ("from", [mkQueryFilter EQUAL_TO "99"; mkQueryFilter EQUAL_TO "12"]) ].

(** Stand-ins for the validators and the tables of data types and statuses
    for the worked cases: a date has ten characters, an amount is not
    empty. *)
Definition isValidDate_sample (date : string) : bool := (String.length date =? 10)%nat.

Definition validateAmount_sample (amount : string) (decimals : nat) : bool := truthy amount.

Definition DATA_TYPES_sample : Obj string :=
[ ("EXPENSE", "expense"); ("INVOICE", "invoice") ].

Definition STATUS_sample : Obj (Obj string) :=
[ ("EXPENSE", [ ("ALL", "all"); ("DRAFTS", "drafts") ]);
  ("INVOICE", [ ("ALL", "all"); ("OUTSTANDING", "outstanding") ]) ].

(** A query with two senders, one of them in the directory, and three date
    entries, the first of which is no date. *)
Definition boundedQuery : SearchQueryJSON :=
expenseQuery None
  [ ("from", [mkQueryFilter EQUAL_TO "99"; mkQueryFilter EQUAL_TO "12"]);
    ("date", [mkQueryFilter LOWER_THAN "soon"; mkQueryFilter LOWER_THAN "2024-01-01";
              mkQueryFilter GREATER_THAN "2023-06-01"]) ].

(** The form of [boundedQuery]; a tag list is the list of its names. *)
Definition boundedForm : PartialForm :=
buildFilterFormValuesFromQuery (list string) [] (fun tagList => tagList) unit string
  isValidDate_sample validateAmount_sample ["cash"; "card"] DATA_TYPES_sample STATUS_sample
  "none" "report_" "policyTags_" "policyCategories_" boundedQuery [] [] []
  personalDetails_sample cardList_sample reports_sample taxRates_sample.

(** ** Proof steps for the loop of the form of a query *)

Ltac eval_eqb :=
  repeat match goal with
  | |- context [String.eqb ?a ?b] =>
      let r := eval vm_compute in (String.eqb a b) in
      match r with
      | true => change (String.eqb a b) with true
      | false => change (String.eqb a b) with false
      end
  end.

Ltac split_key filterKey c :=
  let E := fresh "E" in
  destruct (String.eqb filterKey c) eqn:E;
  [ apply String.eqb_eq in E; subst filterKey; eval_eqb; cbn [orb]; cbv beta iota zeta
  | ].

Ltac project_cases filterKey :=
  unfold projectFilter;
  split_key filterKey SYNTAX.REPORT_ID;
  [ | split_key filterKey SYNTAX.MERCHANT;
  [ | split_key filterKey SYNTAX.DESCRIPTION;
  [ | split_key filterKey SYNTAX.EXPENSE_TYPE;
  [ | split_key filterKey CONST.CARD_ID;
  [ | split_key filterKey CONST.TAX_RATE;
  [ | split_key filterKey SYNTAX.IN;
  [ | split_key filterKey CONST.FROM;
  [ | split_key filterKey CONST.TO;
  [ | split_key filterKey SYNTAX.CURRENCY;
  [ | split_key filterKey SYNTAX.TAG;
  [ | split_key filterKey SYNTAX.CATEGORY;
  [ | split_key filterKey CONST.KEYWORD;
  [ | split_key filterKey CONST.DATE;
  [ | split_key filterKey CONST.AMOUNT;
  [ | cbn [orb]; cbv beta iota zeta ]]]]]]]]]]]]]]].

(** * Properties *)

(** ** Strings *)

Lemma append_assoc (a b c : string) : (a ++ b) ++ c = a ++ (b ++ c).
Proof.
induction a as [| x a IH]; simpl.
- reflexivity.
- now rewrite IH.
Qed.

Lemma append_empty_r (a : string) : a ++ EmptyString = a.
Proof.
induction a as [| x a IH]; simpl; [reflexivity | now rewrite IH].
Qed.

Lemma length_append (a b : string) :
  String.length (a ++ b) = (String.length a + String.length b)%nat.
Proof.
induction a as [| x a IH]; simpl; [reflexivity | now rewrite IH].
Qed.

Lemma list_ascii_of_string_append (a b : string) :
  list_ascii_of_string (a ++ b) = (list_ascii_of_string a ++ list_ascii_of_string b)%list.
Proof.
induction a as [| x a IH]; simpl; [reflexivity | now rewrite IH].
Qed.

(** ** Objects *)

Lemma obj_get_set {V : Type} (k key : string) (v : V) (obj : Obj V) :
  obj_get key (obj_set k v obj) = if String.eqb k key then Some v else obj_get key obj.
Proof.
induction obj as [| [k0 w] rest IH]; simpl.
- destruct (String.eqb k key); reflexivity.
- destruct (String.eqb k0 k) eqn:E0; simpl.
  + apply String.eqb_eq in E0. subst k0.
    destruct (String.eqb k key); reflexivity.
  + destruct (String.eqb k0 key) eqn:E1.
    * destruct (String.eqb k key) eqn:E2; [| reflexivity].
      apply String.eqb_eq in E1, E2. subst. now rewrite String.eqb_refl in E0.
    * exact IH.
Qed.

(** ** The Value Sanitizer *)

Lemma isSafeChar_iff (c : ascii) : isSafeChar c = true <-> SafeChar c.
Proof.
unfold isSafeChar, SafeChar.
rewrite !orb_true_iff, !andb_true_iff, !Nat.leb_le, existsb_exists.
change (nat_of_ascii "A") with 65%nat. change (nat_of_ascii "Z") with 90%nat.
change (nat_of_ascii "a") with 97%nat. change (nat_of_ascii "z") with 122%nat.
change (nat_of_ascii "0") with 48%nat. change (nat_of_ascii "9") with 57%nat.
split.
- intros [[[H | H] | H] | [x [Hin Hx]]]; auto.
  apply Ascii.eqb_eq in Hx. subst x. auto.
- intros [H | [H | [H | H]]]; auto.
  right. exists c. split; [exact H | apply Ascii.eqb_refl].
Qed.

Lemma hasUnsafeChar_false_iff (str : string) :
  hasUnsafeChar str = false <-> Forall SafeChar (list_ascii_of_string str).
Proof.
induction str as [| c rest IH]; simpl.
- split; [constructor | reflexivity].
- rewrite orb_false_iff, negb_false_iff, IH, isSafeChar_iff.
  split.
  + intros [Hc Hrest]. now constructor.
  + intros H. inversion H; subst. now split.
Qed.

Lemma quoted_differs (str : string) : quote ++ str ++ quote <> str.
Proof.
intros H. apply (f_equal String.length) in H.
rewrite !length_append in H. simpl in H. lia.
Qed.

(** C8. [sanitizeSearchValue] returns its argument as it is exactly when
    every character of it is in the safe set, and otherwise the argument
    between two double quotes, with nothing escaped; [hello world] comes
    back quoted and [abc123] as it is. *)
Theorem sanitizeSearchValue_safe_set :
  forall str : string,
    (sanitizeSearchValue str = str <-> Forall SafeChar (list_ascii_of_string str))
    /\ (Forall SafeChar (list_ascii_of_string str)
        \/ sanitizeSearchValue str = quote ++ str ++ quote)
    /\ sanitizeSearchValue "hello world" = quote ++ "hello world" ++ quote
    /\ sanitizeSearchValue "abc123" = "abc123".
Proof.
intros str. repeat split; try reflexivity.
- unfold sanitizeSearchValue. destruct (hasUnsafeChar str) eqn:E.
  + intros H. now apply quoted_differs in H.
  + intros _. now apply hasUnsafeChar_false_iff.
- intros H. apply hasUnsafeChar_false_iff in H.
  unfold sanitizeSearchValue. now rewrite H.
- unfold sanitizeSearchValue. destruct (hasUnsafeChar str) eqn:E; [now right |].
  left. now apply hasUnsafeChar_false_iff.
Qed.

(** ** The policy of a query *)

Lemma split_first (s : string) :
  exists first rest,
    split "," s = first :: rest
    /\ noComma first
    /\ (s = first \/ exists tail, s = first ++ "," ++ tail).
Proof.
induction s as [| c s IH].
- exists EmptyString, []. repeat split; auto. intros c [].
- destruct IH as (first & rest & Hsplit & Hno & Hshape). simpl.
  destruct (Ascii.eqb c ",") eqn:Ec.
  + apply Ascii.eqb_eq in Ec. subst c.
    exists EmptyString, (split "," s). repeat split.
    * intros c [].
    * right. exists s. reflexivity.
  + rewrite Hsplit. exists (String c first), rest. repeat split.
    * intros x [Hx | Hx]; [subst x | now apply Hno].
      intros ->. now rewrite Ascii.eqb_refl in Ec.
    * destruct Hshape as [-> | [tail ->]]; [now left | right; now exists tail].
Qed.

(** C10. [getPolicyIDFromSearchQuery] returns nothing when the policy is
    absent or empty, and otherwise the part of the policy before its first
    comma: a string without comma that is the whole policy, or that the
    policy continues with a comma. The function is pure: its argument is a
    value that the call cannot change. *)
Theorem getPolicyIDFromSearchQuery_first_policy :
  forall queryJSON : SearchQueryJSON,
    match policyID queryJSON with
    | None => getPolicyIDFromSearchQuery queryJSON = None
    | Some EmptyString => getPolicyIDFromSearchQuery queryJSON = None
    | Some p =>
        exists first,
          getPolicyIDFromSearchQuery queryJSON = Some first
          /\ noComma first
          /\ (p = first \/ exists tail, p = first ++ "," ++ tail)
    end.
Proof.
intros queryJSON. unfold getPolicyIDFromSearchQuery.
destruct (policyID queryJSON) as [[| c p] |]; simpl; try reflexivity.
destruct (split_first (String c p)) as (first & rest & Hsplit & Hno & Hshape).
simpl in Hsplit. rewrite Hsplit. simpl.
exists first. auto.
Qed.

(** ** The fragment of a filter key *)

Lemma nth_error_last_of_prefix (pre : list QueryFilter) (x : QueryFilter) (suf : list QueryFilter) :
  nth_error ((pre ++ [x]) ++ suf) (length (pre ++ [x]) - 1) = Some x.
Proof.
rewrite length_app. simpl. replace (length pre + 1 - 1)%nat with (length pre) by lia.
rewrite <- app_assoc. simpl.
rewrite nth_error_app2 by lia. now rewrite Nat.sub_diag.
Qed.

Lemma appendFilterValue_clause (filterName : string) (pre : list QueryFilter)
  (current : QueryFilter) (rest : list QueryFilter) (acc : string) :
  appendFilterValue filterName (pre ++ current :: rest) acc (length pre) current
  = acc ++ clauseOf filterName (last (map Some pre) None) current.
Proof.
unfold appendFilterValue, clauseOf, mergesWithPrevious, previousOperatorIs.
destruct pre as [| p0 pre'] using rev_ind.
- simpl. destruct (String.eqb filterName CONST.KEYWORD); reflexivity.
- clear IHpre'. rewrite map_app. simpl map. rewrite last_last.
  replace ((pre' ++ [p0]) ++ current :: rest)%list
    with (((pre' ++ [p0]) ++ (current :: rest))%list) by reflexivity.
  rewrite nth_error_last_of_prefix.
  assert (Hidx : (length (pre' ++ [p0]) =? 0)%nat = false).
  { rewrite length_app. simpl. apply Nat.eqb_neq. lia. }
  rewrite Hidx. simpl negb. simpl andb.
  destruct (String.eqb filterName CONST.KEYWORD);
    destruct ((Operator_eqb (operator current) EQUAL_TO && Operator_eqb (operator p0) EQUAL_TO)
              || (Operator_eqb (operator current) NOT_EQUAL_TO
                  && Operator_eqb (operator p0) NOT_EQUAL_TO)); reflexivity.
Qed.

Lemma forEachIndexed_clauses (filterName : string) (suf pre : list QueryFilter) (acc : string) :
  forEachIndexed (appendFilterValue filterName (pre ++ suf)) (length pre) suf acc
  = acc ++ String.concat EmptyString (clausesOf filterName (last (map Some pre) None) suf).
Proof.
revert pre acc. induction suf as [| current rest IH]; intros pre acc.
- simpl. now rewrite append_empty_r.
- simpl forEachIndexed. rewrite appendFilterValue_clause.
  replace (pre ++ current :: rest)%list with ((pre ++ [current]) ++ rest)%list
    by (rewrite <- app_assoc; reflexivity).
  replace (S (length pre)) with (length (pre ++ [current])%list)
    by (rewrite length_app; simpl; lia).
  rewrite IH. rewrite map_app. simpl map. rewrite last_last.
  rewrite append_assoc. f_equal.
  simpl clausesOf. destruct rest; simpl.
  + now rewrite append_empty_r.
  + reflexivity.
Qed.

Lemma buildFilterValuesString_clauses (filterName : string) (queryFilters : list QueryFilter) :
  buildFilterValuesString filterName queryFilters
  = String.concat EmptyString (clausesOf filterName None queryFilters).
Proof.
unfold buildFilterValuesString.
exact (forEachIndexed_clauses filterName queryFilters [] EmptyString).
Qed.

(** C3, amended. Under a key other than the keyword key, an entry is
    appended as a comma and its sanitized value exactly when it is not the
    first and it and the entry before it both have the operator eq or both
    have neq, and otherwise as a space, the key, the token of the operator
    and the sanitized value; under the keyword key every entry is appended
    as a space and its sanitized value. The fragment is the concatenation
    of what the entries append, so it begins with a space: for merchant
    with eq a, eq b it is [ merchant:a,b], and with eq a, gt 5 it is
    [ merchant:a merchant>5]. *)
Theorem buildFilterValuesString_merge_rule :
  forall (filterName : string) (queryFilters : list QueryFilter),
    buildFilterValuesString filterName queryFilters
    = String.concat EmptyString (clausesOf filterName None queryFilters)
    /\ (forall (previous : option QueryFilter) (current : QueryFilter),
          if String.eqb filterName CONST.KEYWORD
          then clauseOf filterName previous current
               = " " ++ sanitizeSearchValue (value current)
          else (clauseOf filterName previous current
                = "," ++ sanitizeSearchValue (value current)
                <-> mergesWithPrevious previous current = true)
               /\ (clauseOf filterName previous current
                   = " " ++ filterName ++ operatorToCharMap (operator current)
                       ++ sanitizeSearchValue (value current)
                   <-> mergesWithPrevious previous current = false))
    /\ buildFilterValuesString "merchant"
         [mkQueryFilter EQUAL_TO "a"; mkQueryFilter EQUAL_TO "b"] = " merchant:a,b"
    /\ buildFilterValuesString "merchant"
         [mkQueryFilter EQUAL_TO "a"; mkQueryFilter GREATER_THAN "5"]
       = " merchant:a merchant>5".
Proof.
intros filterName queryFilters.
split; [apply buildFilterValuesString_clauses |].
split; [| split; reflexivity].
intros previous current. unfold clauseOf.
destruct (String.eqb filterName CONST.KEYWORD); [reflexivity |].
destruct (mergesWithPrevious previous current); split; split; intros H;
  try reflexivity; try discriminate H; simpl in H; discriminate H.
Qed.

(** C3 as stated fails. Under the keyword key the entry gt b that follows
    eq a is appended as the delimiter and its value, without key and
    operator, although the two operators differ; and the fragment of
    merchant begins with a space, so it is not [merchant:a,b]. *)
Lemma buildFilterValuesString_keyword_always_merges :
  buildFilterValuesString CONST.KEYWORD
    [mkQueryFilter EQUAL_TO "a"; mkQueryFilter GREATER_THAN "b"]
  = (" " ++ sanitizeSearchValue "a") ++ (" " ++ sanitizeSearchValue "b")
  /\ mergesWithPrevious (Some (mkQueryFilter EQUAL_TO "a")) (mkQueryFilter GREATER_THAN "b")
     = false
  /\ buildFilterValuesString "merchant"
       [mkQueryFilter EQUAL_TO "a"; mkQueryFilter EQUAL_TO "b"] <> "merchant:a,b"
  /\ buildFilterValuesString "merchant"
       [mkQueryFilter EQUAL_TO "a"; mkQueryFilter GREATER_THAN "5"]
     <> "merchant:a merchant>5".
Proof.
repeat split; try reflexivity; intros H; vm_compute in H; discriminate H.
Qed.

(** ** The order of strings and the sort *)





Section Sorting.

Context {A : Type}.
Variable key : A -> string.
Variable comparefn : A -> A -> Z.

(** The comparator follows the order of the keys: it is negative only when
    the first key is at most the second, and otherwise the second key is
    at most the first. *)
Hypothesis negative_le :
  forall x y, (comparefn x y <? 0)%Z = true -> String.leb (key x) (key y) = true.
Hypothesis other_ge :
  forall x y, (comparefn x y <? 0)%Z = false -> String.leb (key y) (key x) = true.


Lemma sift_permutation (x : A) (before : list A) :
  Permutation (x :: before) (sift comparefn x before).
Proof.
induction before as [| y rest IH]; simpl.
- apply Permutation_refl.
- destruct (comparefn x y <? 0)%Z.
  + eapply perm_trans; [apply perm_swap |]. now apply perm_skip.
  + apply Permutation_refl.
Qed.

Lemma fold_sift_permutation (array before : list A) :
  Permutation (array ++ before)
    (fold_left (fun before x => sift comparefn x before) array before).
Proof.
revert before. induction array as [| x array IH]; intros before; simpl.
- apply Permutation_refl.
- eapply perm_trans; [| apply IH].
  eapply perm_trans; [apply Permutation_middle |].
  apply Permutation_app_head. apply sift_permutation.
Qed.

Lemma sort_permutation (array : list A) : Permutation array (sort comparefn array).
Proof.
unfold sort. eapply perm_trans; [| apply Permutation_rev].
rewrite <- (app_nil_r array) at 1. apply fold_sift_permutation.
Qed.







End Sorting.



(** ** The hash of a query *)

Lemma getQueryHash_unfold (hashText : string -> N -> N) (query : SearchQueryJSON) :
  getQueryHash hashText query
  = (hashText (fst (orderedQueryOf query)) (2 ^ 32)%N,
     set_flatFilters query (snd (orderedQueryOf query))).
Proof.
unfold getQueryHash. now destruct (orderedQueryOf query).
Qed.

Lemma concat_empty_cons (x : string) (l : list string) :
  String.concat EmptyString (x :: l) = x ++ String.concat EmptyString l.
Proof.
destruct l; simpl; [now rewrite append_empty_r | reflexivity].
Qed.


Lemma hashFilterKey_snd_get (orderedQuery : string) (flatFilters : QueryFilters)
  (key k : string) :
  obj_get k (snd (hashFilterKey (orderedQuery, flatFilters) key))
  = if String.eqb key k
    then option_map (sort compareFilterValues) (obj_get k flatFilters)
    else obj_get k flatFilters.
Proof.
simpl. destruct (String.eqb key k) eqn:E.
- apply String.eqb_eq in E. subst k.
  destruct (obj_get key flatFilters) as [a |] eqn:G; simpl.
  + now rewrite obj_get_set, String.eqb_refl.
  + exact G.
- destruct (obj_get key flatFilters) as [a |] eqn:G; simpl.
  + now rewrite obj_get_set, E.
  + reflexivity.
Qed.




Lemma obj_keys_set_present {V : Type} (k : string) (v w : V) (obj : Obj V) :
  obj_get k obj = Some w -> obj_keys (obj_set k v obj) = obj_keys obj.
Proof.
induction obj as [| [k0 w0] rest IH]; simpl; [discriminate |].
destruct (String.eqb k0 k) eqn:E; simpl.
- reflexivity.
- intros H. now rewrite IH.
Qed.

Lemma obj_get_None_keys {V : Type} (k : string) (obj : Obj V) :
  ~ In k (obj_keys obj) -> obj_get k obj = None.
Proof.
induction obj as [| [k0 w0] rest IH]; simpl; [reflexivity |].
intros H. destruct (String.eqb k0 k) eqn:E.
- apply String.eqb_eq in E. subst. exfalso. apply H. now left.
- apply IH. intros Hin. apply H. now right.
Qed.

Lemma fold_hashFilterKey_snd (keys : list string) :
  forall (orderedQuery : string) (flatFilters : QueryFilters),
    NoDup keys ->
    obj_keys (snd (fold_left hashFilterKey keys (orderedQuery, flatFilters)))
    = obj_keys flatFilters
    /\ forall k,
         obj_get k (snd (fold_left hashFilterKey keys (orderedQuery, flatFilters)))
         = if existsb (String.eqb k) keys
           then option_map (sort compareFilterValues) (obj_get k flatFilters)
           else obj_get k flatFilters.
Proof.
induction keys as [| key keys IH]; intros orderedQuery flatFilters Hnd.
- simpl. auto.
- inversion Hnd as [| ? ? Hnotin Hnd']; subst.
  cbn [fold_left].
  rewrite (surjective_pairing (hashFilterKey (orderedQuery, flatFilters) key)).
  destruct (IH (fst (hashFilterKey (orderedQuery, flatFilters) key))
               (snd (hashFilterKey (orderedQuery, flatFilters) key)) Hnd')
    as [Hkeys Hget].
  split.
  + rewrite Hkeys. simpl.
    destruct (obj_get key flatFilters) as [a |] eqn:G; simpl; [| reflexivity].
    eapply obj_keys_set_present. exact G.
  + intros k. rewrite Hget, hashFilterKey_snd_get. simpl existsb.
    rewrite (String.eqb_sym k key).
    destruct (String.eqb key k) eqn:E; simpl.
    * apply String.eqb_eq in E. subst k.
      destruct (existsb (String.eqb key) keys) eqn:Ex; [| reflexivity].
      apply existsb_exists in Ex. destruct Ex as [x [Hx Hxk]].
      apply String.eqb_eq in Hxk. subst x. contradiction.
    * reflexivity.
Qed.



(** C1, at a failing input. The two queries have the same root fields and,
    under merchant, the same two entries eq a and neq a in the two
    orders. The comparator sees two equal values in both, so the sort
    moves the entries alike and the strings that are hashed list them in
    opposite orders; with the polynomial hash the two hashes differ. The
    two orders of the entries give two fragments, so this holds whichever
    way a sort arranges two entries that compare alike. *)
Theorem getQueryHash_equal_values_keep_their_order :
  sameRootFields tieQuery1 tieQuery2
  /\ sameFilters (flatFilters tieQuery1) (flatFilters tieQuery2)
  /\ fst (orderedQueryOf tieQuery1)
     = "type:expense status:all sortBy:date sortOrder:desc  merchant!=a merchant:a"
  /\ fst (orderedQueryOf tieQuery2)
     = "type:expense status:all sortBy:date sortOrder:desc  merchant:a merchant!=a"
  /\ fst (getQueryHash hashText_sample tieQuery1)
     <> fst (getQueryHash hashText_sample tieQuery2)
  /\ buildFilterValuesString "merchant"
       [mkQueryFilter EQUAL_TO "a"; mkQueryFilter NOT_EQUAL_TO "a"]
     <> buildFilterValuesString "merchant"
          [mkQueryFilter NOT_EQUAL_TO "a"; mkQueryFilter EQUAL_TO "a"].
Proof.
split; [repeat split |].
split.
{ split; [apply Permutation_refl |].
  intros key. unfold tieQuery1, tieQuery2, expenseQuery. cbn [flatFilters obj_get].
  destruct (String.eqb "merchant" key); [apply perm_swap | exact I]. }
repeat split; try reflexivity; intros H; vm_compute in H; discriminate H.
Qed.

(** C2, at a failing input. After [getQueryHash] every field of the
    argument other than [flatFilters] is what it was, for every query; the
    array of a key is sorted in place, and for the query whose merchant
    filter lists b before a the argument ends with a before b. *)
Theorem getQueryHash_sorts_its_argument :
  (forall (hashText : string -> N -> N) (query : SearchQueryJSON),
     let after := snd (getQueryHash hashText query) in
     inputQuery after = inputQuery query /\ hash after = hash query
     /\ type after = type query /\ status after = status query
     /\ sortBy after = sortBy query /\ sortOrder after = sortOrder query
     /\ policyID after = policyID query /\ filters after = filters query)
  /\ (forall hashText : string -> N -> N,
        flatFilters (snd (getQueryHash hashText unsortedQuery))
        = [("merchant", [mkQueryFilter EQUAL_TO "a"; mkQueryFilter EQUAL_TO "b"])])
  /\ flatFilters unsortedQuery
     = [("merchant", [mkQueryFilter EQUAL_TO "b"; mkQueryFilter EQUAL_TO "a"])].
Proof.
split; [| split; [| reflexivity]].
- intros hashText query. rewrite getQueryHash_unfold. simpl. repeat split.
- intros hashText. rewrite getQueryHash_unfold. reflexivity.
Qed.

(** ** The parser facade *)

(** C6, at a failing input. When the parser throws, [buildSearchQueryJSON]
    returns nothing; when it returns a result, [buildSearchQueryJSON]
    returns that result with the input, the hash that [getQueryHash]
    computes and the filters as [getQueryHash] leaves them. These are not
    the flattened filters in general: for [merchant:b,a] the flattener
    gives b before a and the returned query has a before b. *)
Theorem buildSearchQueryJSON_returns_sorted_filters :
  (forall (keys : list string) (hashText : string -> N -> N)
          (parse : string -> option SearchQueryJSON) (query : string),
     match parse query with
     | None => buildSearchQueryJSON keys hashText parse query = None
     | Some result =>
         let flattened :=
           set_flatFilters (set_inputQuery result query) (getFilters keys result) in
         buildSearchQueryJSON keys hashText parse query
         = Some (set_hash (snd (getQueryHash hashText flattened))
                          (fst (getQueryHash hashText flattened)))
     end)
  /\ option_map flatFilters
       (buildSearchQueryJSON SYNTAX_FILTER_KEYS_sample hashText_sample parse_sample
          "merchant:b,a")
     = Some [("merchant", [mkQueryFilter EQUAL_TO "a"; mkQueryFilter EQUAL_TO "b"])]
  /\ option_map (getFilters SYNTAX_FILTER_KEYS_sample) (parse_sample "merchant:b,a")
     = Some [("merchant", [mkQueryFilter EQUAL_TO "b"; mkQueryFilter EQUAL_TO "a"])].
Proof.
split; [| split; reflexivity].
intros keys hashText parse query. unfold buildSearchQueryJSON.
destruct (parse query) as [result |]; [| reflexivity].
cbv zeta.
destruct (getQueryHash hashText _) as [h after]. reflexivity.
Qed.

(** ** The flattener *)

Lemma pushFilters_app (operator : Operator) (rhs : FilterValue) (filterArray : list QueryFilter) :
  pushFilters operator rhs filterArray
  = (filterArray ++ map (mkQueryFilter operator) (elementsOf rhs))%list.
Proof.
destruct rhs as [v | vs]; simpl; [reflexivity |].
revert filterArray. induction vs as [| v vs IH]; intros filterArray; simpl.
- now rewrite app_nil_r.
- rewrite IH. unfold push. now rewrite <- app_assoc.
Qed.

Lemma entriesUnder_app (key : string) (cs1 cs2 : list (string * list QueryFilter)) :
  entriesUnder key (cs1 ++ cs2) = (entriesUnder key cs1 ++ entriesUnder key cs2)%list.
Proof. apply flat_map_app. Qed.

Lemma contributes_app (key : string) (cs1 cs2 : list (string * list QueryFilter)) :
  contributes key (cs1 ++ cs2) = contributes key cs1 || contributes key cs2.
Proof. apply existsb_app. Qed.

Lemma extended_nil (before : option (list QueryFilter)) (key : string) :
  extended before key [] = before.
Proof.
destruct before; simpl; [now rewrite app_nil_r | reflexivity].
Qed.

Lemma extended_app (before : option (list QueryFilter)) (key : string)
  (cs1 cs2 : list (string * list QueryFilter)) :
  extended (extended before key cs1) key cs2 = extended before key (cs1 ++ cs2).
Proof.
unfold extended. rewrite entriesUnder_app, contributes_app.
destruct before as [entries |].
- now rewrite app_assoc.
- destruct (contributes key cs1) eqn:E1; simpl.
  + reflexivity.
  + assert (Hnil : entriesUnder key cs1 = []).
    { unfold contributes in E1. unfold entriesUnder.
      induction cs1 as [| c cs1 IH]; [reflexivity |].
      simpl in *. apply orb_false_iff in E1. destruct E1 as [Ec E1].
      rewrite Ec. simpl. now apply IH. }
    rewrite Hnil. reflexivity.
Qed.

Lemma obj_get_recordFilter (filterKeys : list string) (operator : Operator)
  (nodeKey : string) (rhs : FilterValue) (filters : QueryFilters) (key : string) :
  obj_get key (recordFilter filterKeys operator nodeKey rhs filters)
  = extended (obj_get key filters) key
      (contributions filterKeys (KeyNode (Some operator) nodeKey rhs)).
Proof.
unfold recordFilter. simpl contributions.
destruct (existsb (String.eqb nodeKey) filterKeys); simpl negb; cbv iota.
2: { now rewrite extended_nil. }
rewrite obj_get_set, pushFilters_app.
unfold extended, entriesUnder, contributes. simpl.
destruct (String.eqb nodeKey key) eqn:E.
- apply String.eqb_eq in E. subst key. rewrite app_nil_r.
  destruct (obj_get nodeKey filters) as [entries |] eqn:G.
  + rewrite G. reflexivity.
  + rewrite obj_get_set, String.eqb_refl. reflexivity.
- simpl. destruct (obj_get nodeKey filters) as [entries |] eqn:G.
  + destruct (obj_get key filters); [now rewrite app_nil_r | reflexivity].
  + rewrite obj_get_set, E.
    destruct (obj_get key filters); [now rewrite app_nil_r | reflexivity].
Qed.

Lemma obj_get_getFilters_traverse (filterKeys : list string) (node : ASTNode) :
  forall (filters : QueryFilters) (key : string),
    obj_get key (getFilters_traverse filterKeys node filters)
    = extended (obj_get key filters) key (contributions filterKeys node).
Proof.
induction node as [op nodeKey rhs | op lhs IHl rhs | op lhs IHl rhs IHr];
  intros filters key; destruct op as [operator |]; simpl;
  try (now rewrite extended_nil).
- apply obj_get_recordFilter.
- apply IHl.
- rewrite IHr, IHl. apply extended_app.
Qed.

(** C9. The flattened filters of a query without tree are empty. For a
    query with a tree, a key holds the entries that the traversal meets
    for it, in the order of the traversal: left subtree, then right
    subtree, then the node itself, which gives, when its [left] is a
    recognized filter key, one entry for each right-hand element. A key
    without contribution is absent. *)
Theorem getFilters_encounter_order :
  forall (filterKeys : list string) (queryJSON : SearchQueryJSON),
    match filters queryJSON with
    | None => getFilters filterKeys queryJSON = []
    | Some ast =>
        forall key : string,
          obj_get key (getFilters filterKeys queryJSON)
          = (if contributes key (contributions filterKeys ast)
             then Some (entriesUnder key (contributions filterKeys ast))
             else None)
    end.
Proof.
intros filterKeys queryJSON. unfold getFilters.
destruct (filters queryJSON) as [ast |]; [| reflexivity].
intros key. now rewrite obj_get_getFilters_traverse.
Qed.

(** ** The serializer *)

Lemma fold_left_pushRootKey (queryJSON defaultQueryJSON : option SearchQueryJSON)
  (keys : list RootKey) (queryParts : list string) :
  fold_left (pushRootKey queryJSON defaultQueryJSON) keys queryParts
  = (queryParts ++ flat_map (rootClause queryJSON defaultQueryJSON) keys)%list.
Proof.
revert queryParts. induction keys as [| key keys IH]; intros queryParts; simpl.
- now rewrite app_nil_r.
- rewrite IH. unfold pushRootKey, rootClause, push.
  destruct (truthy_opt _); simpl.
  + now rewrite <- app_assoc.
  + reflexivity.
Qed.

Lemma fold_left_pushFilterKey (filters : QueryFilters) (keys : list string)
  (queryParts : list string) :
  fold_left (pushFilterKey filters) keys queryParts
  = (queryParts ++ flat_map (filterFragment filters) keys)%list.
Proof.
revert queryParts. induction keys as [| key keys IH]; intros queryParts; simpl.
- now rewrite app_nil_r.
- rewrite IH. unfold pushFilterKey, filterFragment, push.
  destruct (obj_get key filters); simpl.
  + now rewrite <- app_assoc.
  + reflexivity.
Qed.

(** C4, at a failing input. [buildSearchQueryString] joins with one space
    the clauses of the root keys, in their enumeration order, and then the
    fragments of the filter keys, in theirs. A fragment that is not empty
    begins with a space of its own, and nothing is trimmed: the query with
    one merchant filter is written with two spaces before [merchant:a]. *)
Theorem buildSearchQueryString_double_space :
  (forall (filterKeys : list string) (rootKeys : list RootKey)
          (hashText : string -> N -> N) (parse : string -> option SearchQueryJSON)
          (queryJSON : SearchQueryJSON),
     buildSearchQueryString filterKeys rootKeys hashText parse (Some queryJSON)
     = join " "
         (flat_map
            (rootClause (Some queryJSON)
               (buildSearchQueryJSON filterKeys hashText parse EmptyString))
            rootKeys
          ++ flat_map (filterFragment (flatFilters queryJSON)) filterKeys)%list)
  /\ (forall (hashText : string -> N -> N) (parse : string -> option SearchQueryJSON),
        buildSearchQueryString SYNTAX_FILTER_KEYS_sample SYNTAX_ROOT_KEYS_sample
          hashText parse (Some merchantQuery)
        = "policyID:p1 type:expense status:all sortBy:date sortOrder:desc  merchant:a")
  /\ hasSpaceRun
       "policyID:p1 type:expense status:all sortBy:date sortOrder:desc  merchant:a"
     = true.
Proof.
assert (Hshape :
  forall filterKeys rootKeys hashText parse queryJSON,
    buildSearchQueryString filterKeys rootKeys hashText parse (Some queryJSON)
    = join " "
        (flat_map
           (rootClause (Some queryJSON)
              (buildSearchQueryJSON filterKeys hashText parse EmptyString))
           rootKeys
         ++ flat_map (filterFragment (flatFilters queryJSON)) filterKeys)%list).
{ intros. unfold buildSearchQueryString.
  now rewrite fold_left_pushFilterKey, fold_left_pushRootKey. }
split; [exact Hshape | split; [| reflexivity]].
intros hashText parse. rewrite Hshape.
destruct (buildSearchQueryJSON _ _ _ _); reflexivity.
Qed.

(** ** The form converter *)

Lemma buildDateFilterQuery_range (filterValues : SearchAdvancedFiltersForm) :
  buildDateFilterQuery filterValues
  = rangeFragment (CONST.DATE ++ "<") (CONST.DATE ++ ">")
      (obj_get FILTER_KEYS.DATE_BEFORE filterValues)
      (obj_get FILTER_KEYS.DATE_AFTER filterValues).
Proof.
unfold buildDateFilterQuery, rangeFragment.
destruct (truthyValue (obj_get FILTER_KEYS.DATE_BEFORE filterValues)),
         (truthyValue (obj_get FILTER_KEYS.DATE_AFTER filterValues)); simpl;
  rewrite ?append_assoc; reflexivity.
Qed.

Lemma buildAmountFilterQuery_range (filterValues : SearchAdvancedFiltersForm) :
  buildAmountFilterQuery filterValues
  = rangeFragment (CONST.AMOUNT ++ ">") (CONST.AMOUNT ++ "<")
      (obj_get FILTER_KEYS.GREATER_THAN filterValues)
      (obj_get FILTER_KEYS.LESS_THAN filterValues).
Proof.
unfold buildAmountFilterQuery, rangeFragment.
destruct (truthyValue (obj_get FILTER_KEYS.GREATER_THAN filterValues)),
         (truthyValue (obj_get FILTER_KEYS.LESS_THAN filterValues)); simpl;
  rewrite ?append_assoc; reflexivity.
Qed.

(** C5, at a failing input. The date fragment is the clause of the upper
    bound, then the clause of the lower bound, with a space between them
    when both are present, and the amount fragment is built alike from the
    lower and the upper amount; a fragment without bounds is the empty
    string. The converter pushes the two fragments also when they are
    empty: a form with a lower amount and no date is written with two
    spaces before [amount>5]. *)
Theorem buildQueryStringFromFilterFormValues_empty_date_fragment :
  (forall filterValues : SearchAdvancedFiltersForm,
     buildDateFilterQuery filterValues
     = rangeFragment "date<" "date>"
         (obj_get "dateBefore" filterValues) (obj_get "dateAfter" filterValues)
     /\ buildAmountFilterQuery filterValues
        = rangeFragment "amount>" "amount<"
            (obj_get "greaterThan" filterValues) (obj_get "lessThan" filterValues))
  /\ buildDateFilterQuery amountOnlyForm = EmptyString
  /\ (forall filterKeys : list string,
        buildQueryStringFromFilterFormValues filterKeys amountOnlyForm
        = Some "sortBy:date sortOrder:desc  amount>5")
  /\ hasSpaceRun "sortBy:date sortOrder:desc  amount>5" = true.
Proof.
split; [| repeat split].
intros filterValues. split.
- apply buildDateFilterQuery_range.
- apply buildAmountFilterQuery_range.
Qed.

(** ** The standardizer *)

Section Standardizer.

Variable filterKeys : list string.
Variable getPersonalDetailByEmail : string -> option PersonalDetails.
Variable cardList : CardList.
Variable taxRates : Obj (list string).

Let resolved := notDisplayValue getPersonalDetailByEmail cardList taxRates.
Let findID (key : string) (rhs : FilterValue) : FilterValue :=
  findIDFromDisplayValue getPersonalDetailByEmail key rhs cardList taxRates.

Lemma map_accountIDOfEmail_fixed (emails : list string) :
  forallb (fun v => match getPersonalDetailByEmail v with None => true | Some _ => false end)
    emails = true ->
  map (accountIDOfEmail getPersonalDetailByEmail) emails = emails.
Proof.
induction emails as [| email emails IH]; simpl; [reflexivity |].
intros H. apply andb_true_iff in H. destruct H as [He Hrest].
unfold accountIDOfEmail at 1.
destruct (getPersonalDetailByEmail email); [discriminate |].
now rewrite IH.
Qed.

Lemma flat_map_taxRates_fixed (names : list string) :
  forallb (fun v => match obj_get v taxRates with None => true | Some _ => false end)
    names = true ->
  flat_map (fun name => nullish (obj_get name taxRates) [name]) names = names.
Proof.
induction names as [| name names IH]; simpl; [reflexivity |].
intros H. apply andb_true_iff in H. destruct H as [Hn Hrest].
destruct (obj_get name taxRates); [discriminate |].
simpl. now rewrite IH.
Qed.

Lemma flat_map_cardIDsOfBank_nil (banks : list string) :
  forallb (fun v => match cardIDsOfBank cardList v with [] => true | _ :: _ => false end)
    banks = true ->
  flat_map (cardIDsOfBank cardList) banks = [].
Proof.
induction banks as [| b banks IH]; simpl; [reflexivity |].
intros H. apply andb_true_iff in H. destruct H as [Hb Hrest].
destruct (cardIDsOfBank cardList b); [| discriminate].
simpl. now apply IH.
Qed.

(** On identifiers the lookup settles after one application. *)
Lemma findIDFromDisplayValue_settles (key : string) (rhs : FilterValue) :
  forallb (resolved key) (elementsOf rhs) = true ->
  findID key (findID key rhs) = findID key rhs.
Proof.
unfold resolved, notDisplayValue, findID, findIDFromDisplayValue.
destruct (String.eqb key CONST.FROM || String.eqb key CONST.TO).
{ intros H. destruct rhs as [v | vs]; simpl in *.
  - rewrite andb_true_r in H. unfold accountIDOfEmail.
    destruct (getPersonalDetailByEmail v) eqn:E; [discriminate |]. now rewrite E.
  - now rewrite (map_accountIDOfEmail_fixed vs H), (map_accountIDOfEmail_fixed vs H). }
destruct (String.eqb key CONST.TAX_RATE).
{ intros H.
  assert (Hfix : flat_map (fun name => nullish (obj_get name taxRates) [name])
                   (elementsOf rhs) = elementsOf rhs)
    by now apply flat_map_taxRates_fixed.
  destruct rhs as [v | vs]; cbn [elementsOf] in Hfix; cbv beta iota zeta;
    now rewrite !Hfix. }
destruct (String.eqb key CONST.CARD_ID); [| reflexivity].
intros H. destruct rhs as [v | vs]; simpl in *.
- rewrite andb_true_r in H.
  destruct (cardIDsOfBank cardList v) eqn:E; [| discriminate].
  simpl. now rewrite E.
- now rewrite (flat_map_cardIDsOfBank_nil vs H).
Qed.

Lemma standardizeQueryJSON_traverse_settles (node : ASTNode) :
  valuesOf resolved node = true ->
  standardizeQueryJSON_traverse getPersonalDetailByEmail cardList taxRates
    (standardizeQueryJSON_traverse getPersonalDetailByEmail cardList taxRates node)
  = standardizeQueryJSON_traverse getPersonalDetailByEmail cardList taxRates node.
Proof.
induction node as [op key rhs | op lhs IHl rhs | op lhs IHl rhs IHr];
  destruct op as [operator |]; simpl; intros H; try reflexivity.
- f_equal. now apply findIDFromDisplayValue_settles.
- now rewrite IHl.
- apply andb_true_iff in H. destruct H as [Hl Hr]. now rewrite IHl, IHr.
Qed.

(** C7, amended. When no right-hand value of the tree is a display value
    of the directories for its key (no personal detail has it as login, no
    tax rate as name, no card as bank), standardizing the standardized
    query gives the standardized query. *)
Theorem standardizeQueryJSON_idempotent (queryJSON : SearchQueryJSON) :
  queryValuesOf (notDisplayValue getPersonalDetailByEmail cardList taxRates) queryJSON = true ->
  standardizeQueryJSON filterKeys getPersonalDetailByEmail
    (standardizeQueryJSON filterKeys getPersonalDetailByEmail queryJSON cardList taxRates)
    cardList taxRates
  = standardizeQueryJSON filterKeys getPersonalDetailByEmail queryJSON cardList taxRates.
Proof.
unfold queryValuesOf, standardizeQueryJSON.
destruct queryJSON as [iq h ty st sb so pid [ast |] flat]; simpl; [| reflexivity].
intros H. unfold getFilters. simpl.
now rewrite (standardizeQueryJSON_traverse_settles ast H).
Qed.

End Standardizer.

(** The amended C7 at a query of identifiers: an account, two cards, a tax
    rate. *)
Lemma standardizeQueryJSON_idempotent_witness :
  queryValuesOf
    (notDisplayValue getPersonalDetailByEmail_sample cardList_sample taxRates_sample)
    identifiersQuery = true
  /\ standardizeQueryJSON SYNTAX_FILTER_KEYS_sample getPersonalDetailByEmail_sample
       (standardizeQueryJSON SYNTAX_FILTER_KEYS_sample getPersonalDetailByEmail_sample
          identifiersQuery cardList_sample taxRates_sample)
       cardList_sample taxRates_sample
     = standardizeQueryJSON SYNTAX_FILTER_KEYS_sample getPersonalDetailByEmail_sample
         identifiersQuery cardList_sample taxRates_sample.
Proof.
split.
- reflexivity.
- apply (standardizeQueryJSON_idempotent SYNTAX_FILTER_KEYS_sample
           getPersonalDetailByEmail_sample cardList_sample taxRates_sample
           identifiersQuery).
  reflexivity.
Defined.

(** C7 as stated fails. In a card directory where a bank is spelled like
    the identifier of another card, the query about card 7 holds a
    canonical identifier; the first pass reads 7 as a bank and gives the
    list of its one card, 5, and the second pass, on a list, finds no card
    of a bank 5 and gives the empty list. *)
Lemma standardizeQueryJSON_clash_not_idempotent :
  match filters cardQuery with
  | Some ast =>
      ValuesOf (CanonicalValue getPersonalDetailByEmail_sample cardList_clash []) ast
  | None => True
  end
  /\ standardizeQueryJSON SYNTAX_FILTER_KEYS_sample getPersonalDetailByEmail_sample
       (standardizeQueryJSON SYNTAX_FILTER_KEYS_sample getPersonalDetailByEmail_sample
          cardQuery cardList_clash [])
       cardList_clash []
     <> standardizeQueryJSON SYNTAX_FILTER_KEYS_sample getPersonalDetailByEmail_sample
          cardQuery cardList_clash [].
Proof.
split.
- simpl. constructor; [| constructor]. repeat split.
  + intros [H | H]; discriminate H.
  + intros _. exists (mkCard "chase" 7). split; [simpl; auto | reflexivity].
  + intros H. discriminate H.
- intros H. vm_compute in H. discriminate H.
Qed.

(** * Further properties *)

(** ** The keys of the flattened filters *)

Lemma obj_keys_set {V : Type} (k : string) (v : V) (obj : Obj V) :
  obj_keys (obj_set k v obj) = addKey (obj_keys obj) k.
Proof.
unfold addKey, push.
induction obj as [| [k0 w] rest IH]; simpl; [reflexivity |].
rewrite (String.eqb_sym k k0).
destruct (String.eqb k0 k) eqn:E; simpl; [reflexivity |].
rewrite IH. fold (obj_keys rest).
destruct (existsb (String.eqb k) (obj_keys rest)); reflexivity.
Qed.

Lemma addKey_present (kept : list string) (key : string) :
  In key kept -> addKey kept key = kept.
Proof.
intros H. unfold addKey.
assert (E : existsb (String.eqb key) kept = true).
{ apply existsb_exists. exists key. split; [exact H | apply String.eqb_refl]. }
now rewrite E.
Qed.

Lemma addKey_In (kept : list string) (key k : string) :
  In k (addKey kept key) <-> In k kept \/ k = key.
Proof.
unfold addKey, push.
destruct (existsb (String.eqb key) kept) eqn:E.
- split; [auto |]. intros [H | ->]; [exact H |].
  apply existsb_exists in E. destruct E as [x [Hx Hxk]].
  apply String.eqb_eq in Hxk. now subst.
- rewrite in_app_iff. simpl. intuition.
Qed.

Lemma addKey_NoDup (kept : list string) (key : string) :
  NoDup kept -> NoDup (addKey kept key).
Proof.
intros H. unfold addKey, push.
destruct (existsb (String.eqb key) kept) eqn:E; [exact H |].
apply NoDup_app; [exact H | constructor; [intros [] | constructor] |].
intros x Hx [-> | []].
assert (Et : existsb (String.eqb x) kept = true).
{ apply existsb_exists. exists x. split; [exact Hx | apply String.eqb_refl]. }
congruence.
Qed.

Lemma fold_addKey_NoDup (keys kept : list string) :
  NoDup kept -> NoDup (fold_left addKey keys kept).
Proof.
revert kept. induction keys as [| k keys IH]; intros kept H; simpl.
- exact H.
- apply IH. now apply addKey_NoDup.
Qed.

Lemma fold_addKey_In (keys kept : list string) (k : string) :
  In k (fold_left addKey keys kept) <-> In k kept \/ In k keys.
Proof.
revert kept. induction keys as [| k0 keys IH]; intros kept; simpl.
- intuition.
- rewrite IH, addKey_In. intuition.
Qed.

Lemma obj_keys_recordFilter (filterKeys : list string) (operator : Operator)
  (nodeKey : string) (rhs : FilterValue) (filters : QueryFilters) :
  obj_keys (recordFilter filterKeys operator nodeKey rhs filters)
  = fold_left addKey
      (map fst (contributions filterKeys (KeyNode (Some operator) nodeKey rhs)))
      (obj_keys filters).
Proof.
unfold recordFilter. simpl contributions.
destruct (existsb (String.eqb nodeKey) filterKeys); simpl; [| reflexivity].
rewrite obj_keys_set.
destruct (obj_get nodeKey filters); [reflexivity |].
rewrite obj_keys_set. apply addKey_present. apply addKey_In. now right.
Qed.

Lemma obj_keys_getFilters_traverse (filterKeys : list string) (node : ASTNode) :
  forall filters : QueryFilters,
    obj_keys (getFilters_traverse filterKeys node filters)
    = fold_left addKey (map fst (contributions filterKeys node)) (obj_keys filters).
Proof.
induction node as [op nodeKey rhs | op lhs IHl rhs | op lhs IHl rhs IHr];
  intros filters; destruct op as [operator |]; try reflexivity.
- apply obj_keys_recordFilter.
- simpl. apply IHl.
- simpl. rewrite IHr, IHl, map_app, fold_left_app. reflexivity.
Qed.

Lemma contributions_recognized (filterKeys : list string) (node : ASTNode) (k : string) :
  In k (map fst (contributions filterKeys node)) -> In k filterKeys.
Proof.
induction node as [op nodeKey rhs | op lhs IHl rhs | op lhs IHl rhs IHr];
  destruct op as [operator |]; simpl; try (intros []); auto.
- destruct (existsb (String.eqb nodeKey) filterKeys) eqn:E; simpl; [| intros []].
  intros [<- | []]. apply existsb_exists in E. destruct E as [x [Hx Hxk]].
  apply String.eqb_eq in Hxk. now subst.
- rewrite map_app, in_app_iff. intros [H | H]; auto.
Qed.

Lemma getFilters_NoDup (filterKeys : list string) (queryJSON : SearchQueryJSON) :
  NoDup (obj_keys (getFilters filterKeys queryJSON)).
Proof.
unfold getFilters. destruct (filters queryJSON) as [ast |]; [| constructor].
rewrite obj_keys_getFilters_traverse. apply fold_addKey_NoDup. constructor.
Qed.

(** The object that [getFilters] returns holds every key once, holds only
    keys of the table, and lists its keys in the order in which the
    traversal first meets them. *)
Theorem getFilters_keys :
  forall (filterKeys : list string) (queryJSON : SearchQueryJSON),
    NoDup (obj_keys (getFilters filterKeys queryJSON))
    /\ (forall k, In k (obj_keys (getFilters filterKeys queryJSON)) -> In k filterKeys)
    /\ obj_keys (getFilters filterKeys queryJSON)
       = match filters queryJSON with
         | Some ast => uniqueValues (map fst (contributions filterKeys ast))
         | None => []
         end.
Proof.
intros filterKeys queryJSON. unfold getFilters.
destruct (filters queryJSON) as [ast |].
- rewrite obj_keys_getFilters_traverse. repeat split.
  + apply fold_addKey_NoDup. constructor.
  + intros k Hk. apply fold_addKey_In in Hk. destruct Hk as [[] | Hk].
    eapply contributions_recognized. exact Hk.
- repeat split; [constructor | intros k []].
Qed.

(** ** The hash and the parser facade, continued *)

Lemma sort_keys_NoDup (keys : list string) :
  NoDup keys -> NoDup (sort defaultCompare keys).
Proof.
intros H. eapply Permutation_NoDup; [apply sort_permutation | exact H].
Qed.

Lemma existsb_sort_keys (keys : list string) (k : string) :
  existsb (String.eqb k) (sort defaultCompare keys) = existsb (String.eqb k) keys.
Proof.
apply eq_true_iff_eq. rewrite !existsb_exists.
split; intros [x [Hx Hxk]]; exists x; split; auto.
- eapply Permutation_in; [apply Permutation_sym, sort_permutation | exact Hx].
- eapply Permutation_in; [apply sort_permutation | exact Hx].
Qed.

(** What the loop of [getQueryHash] leaves in [flatFilters]. *)
Lemma orderedQueryOf_snd (query : SearchQueryJSON) :
  NoDup (obj_keys (flatFilters query)) ->
  obj_keys (snd (orderedQueryOf query)) = obj_keys (flatFilters query)
  /\ forall key,
       obj_get key (snd (orderedQueryOf query))
       = option_map (sort compareFilterValues) (obj_get key (flatFilters query)).
Proof.
intros Hnd. unfold orderedQueryOf.
match goal with
| |- context [fold_left hashFilterKey ?ks (?oq, ?ff)] =>
    destruct (fold_hashFilterKey_snd ks oq ff (sort_keys_NoDup _ Hnd)) as [Hkeys Hget]
end.
split; [exact Hkeys |].
intros key. rewrite Hget, existsb_sort_keys.
destruct (existsb (String.eqb key) (obj_keys (flatFilters query))) eqn:Ex; [reflexivity |].
assert (Hnone : obj_get key (flatFilters query) = None).
{ apply obj_get_None_keys. intros Hin.
  assert (Htrue : existsb (String.eqb key) (obj_keys (flatFilters query)) = true).
  { apply existsb_exists. exists key. split; [exact Hin | apply String.eqb_refl]. }
  congruence. }
now rewrite Hnone.
Qed.



Lemma buildSearchQueryJSON_result :
  forall (keys : list string) (hashText : string -> N -> N)
         (parse : string -> option SearchQueryJSON) (query : string),
    match parse query with
    | None => buildSearchQueryJSON keys hashText parse query = None
    | Some result =>
        exists r,
          buildSearchQueryJSON keys hashText parse query = Some r
          /\ inputQuery r = query
          /\ sameRootFields r result
          /\ filters r = filters result
          /\ obj_keys (flatFilters r) = obj_keys (getFilters keys result)
          /\ (forall key,
                obj_get key (flatFilters r)
                = option_map (sort compareFilterValues)
                    (obj_get key (getFilters keys result)))
          /\ (isCannedSearchQuery r = true -> flatFilters r = [])
    end.
Proof.
intros keys hashText parse query. unfold buildSearchQueryJSON.
destruct (parse query) as [result |]; [| reflexivity].
cbv zeta. rewrite getQueryHash_unfold.
eexists. split; [reflexivity |]. cbn [inputQuery filters flatFilters set_hash set_flatFilters
  set_inputQuery fst snd].
split; [reflexivity |]. split; [repeat split |]. split; [reflexivity |].
set (flattened := set_flatFilters (set_inputQuery result query) (getFilters keys result)).
assert (Hnd : NoDup (obj_keys (flatFilters flattened))).
{ apply getFilters_NoDup. }
destruct (orderedQueryOf_snd flattened Hnd) as [Hkeys Hget].
split; [exact Hkeys |]. split; [exact Hget |].
unfold isCannedSearchQuery. cbn [filters set_hash set_flatFilters].
change (filters flattened) with (filters result).
destruct (filters result) as [ast |] eqn:Hast; [discriminate |]. intros _.
assert (Hempty : getFilters keys result = []) by (unfold getFilters; now rewrite Hast).
destruct (snd (orderedQueryOf flattened)) as [| e rest] eqn:Hs; [reflexivity |].
exfalso. cbn [flattened flatFilters set_flatFilters] in Hkeys.
rewrite Hempty in Hkeys. discriminate Hkeys.
Qed.


Lemma Permutation_tieFree (a b : list QueryFilter) :
  Permutation a b -> tieFree a -> tieFree b.
Proof.
intros Hperm Htie x y Hx Hy. apply Htie.
- eapply Permutation_in; [apply Permutation_sym; exact Hperm | exact Hx].
- eapply Permutation_in; [apply Permutation_sym; exact Hperm | exact Hy].
Qed.



(** ** The fragment of a filter key, continued *)

Lemma clausesOf_same_operator (filterName : string) (op : Operator)
  (previous : QueryFilter) (queryFilters : list QueryFilter) :
  String.eqb filterName CONST.KEYWORD = false ->
  op = EQUAL_TO \/ op = NOT_EQUAL_TO ->
  operator previous = op ->
  Forall (fun queryFilter => operator queryFilter = op) queryFilters ->
  String.concat EmptyString (clausesOf filterName (Some previous) queryFilters)
  = String.concat EmptyString
      (map (fun queryFilter => "," ++ sanitizeSearchValue (value queryFilter)) queryFilters).
Proof.
intros Hname Hop. revert previous.
induction queryFilters as [| current rest IH]; intros previous Hprev Hall; [reflexivity |].
pose proof (Forall_inv Hall) as Hcur. pose proof (Forall_inv_tail Hall) as Hrest.
cbn beta in Hcur.
cbn [clausesOf map]. rewrite !concat_empty_cons, (IH current Hcur Hrest). f_equal.
unfold clauseOf, mergesWithPrevious. rewrite Hname, Hprev, Hcur.
destruct Hop as [E | E]; rewrite E; reflexivity.
Qed.

Lemma concat_comma_join (first : string) (others : list string) :
  first ++ String.concat EmptyString (map (fun v => "," ++ v) others)
  = join "," (first :: others).
Proof.
unfold join. revert first. induction others as [| v others IH]; intros first.
- simpl. apply append_empty_r.
- cbn [map]. rewrite concat_empty_cons.
  change (String.concat "," (first :: v :: others))
    with (first ++ "," ++ String.concat "," (v :: others)).
  rewrite <- IH. now rewrite append_assoc.
Qed.

Lemma buildFilterValuesString_same_operator :
  forall (filterName : string) (op : Operator) (first : QueryFilter)
         (others : list QueryFilter),
    String.eqb filterName CONST.KEYWORD = false ->
    op = EQUAL_TO \/ op = NOT_EQUAL_TO ->
    Forall (fun queryFilter => operator queryFilter = op) (first :: others) ->
    buildFilterValuesString filterName (first :: others)
    = " " ++ filterName ++ operatorToCharMap op
        ++ join "," (map (fun queryFilter => sanitizeSearchValue (value queryFilter))
                       (first :: others)).
Proof.
intros filterName op first others Hname Hop Hall.
pose proof (Forall_inv Hall) as Hfirst. pose proof (Forall_inv_tail Hall) as Hothers.
cbn beta in Hfirst.
rewrite buildFilterValuesString_clauses. cbn [clausesOf]. rewrite concat_empty_cons.
rewrite (clausesOf_same_operator filterName op first others Hname Hop Hfirst Hothers).
unfold clauseOf. rewrite Hname, Hfirst. cbn [mergesWithPrevious].
rewrite !append_assoc. cbn [map].
rewrite <- concat_comma_join, map_map. reflexivity.
Qed.

(** The compact list: under a key other than the keyword key, entries that
    all have the operator eq, or all neq, are written as one clause, the
    key and the token of the operator once and the sanitized values joined
    by commas. *)
Theorem buildFilterValuesString_compact_list :
  forall (filterName : string) (op : Operator) (first : QueryFilter)
         (others : list QueryFilter),
    String.eqb filterName CONST.KEYWORD = false ->
    op = EQUAL_TO \/ op = NOT_EQUAL_TO ->
    Forall (fun queryFilter => operator queryFilter = op) (first :: others) ->
    buildFilterValuesString filterName (first :: others)
    = " " ++ filterName ++ operatorToCharMap op
        ++ join "," (map (fun queryFilter => sanitizeSearchValue (value queryFilter))
                       (first :: others)).
Proof. exact buildFilterValuesString_same_operator. Qed.

Lemma buildFilterValuesString_compact_list_witness :
  buildFilterValuesString "category"
    [mkQueryFilter NOT_EQUAL_TO "Travel"; mkQueryFilter NOT_EQUAL_TO "Meals and fun"]
  = " category!=" ++ join "," ["Travel"; sanitizeSearchValue "Meals and fun"].
Proof.
apply (buildFilterValuesString_compact_list "category" NOT_EQUAL_TO
         (mkQueryFilter NOT_EQUAL_TO "Travel") [mkQueryFilter NOT_EQUAL_TO "Meals and fun"]).
- reflexivity.
- now right.
- repeat constructor.
Defined.

(** ** The Value Sanitizer, continued *)

Lemma hasUnsafeChar_append (a b : string) :
  hasUnsafeChar (a ++ b) = hasUnsafeChar a || hasUnsafeChar b.
Proof.
induction a as [| c a IH]; simpl; [reflexivity |].
now rewrite IH, orb_assoc.
Qed.

(** The quotes that [sanitizeSearchValue] adds do not make a value safe:
    sanitizing a sanitized value gives the same string exactly when every
    character of the value is in the safe set, and otherwise wraps it in a
    second pair of quotes. *)
Theorem sanitizeSearchValue_twice :
  forall str : string,
    (sanitizeSearchValue (sanitizeSearchValue str) = sanitizeSearchValue str
     <-> Forall SafeChar (list_ascii_of_string str))
    /\ (Forall SafeChar (list_ascii_of_string str)
        \/ sanitizeSearchValue (sanitizeSearchValue str)
           = quote ++ (quote ++ str ++ quote) ++ quote).
Proof.
intros str. destruct (hasUnsafeChar str) eqn:E.
- assert (Hs : sanitizeSearchValue str = quote ++ str ++ quote)
    by (unfold sanitizeSearchValue; now rewrite E).
  assert (Hq : sanitizeSearchValue (quote ++ str ++ quote)
               = quote ++ (quote ++ str ++ quote) ++ quote).
  { unfold sanitizeSearchValue. rewrite !hasUnsafeChar_append, E. reflexivity. }
  rewrite Hs, Hq. split; [| now right]. split.
  + intros H. now apply quoted_differs in H.
  + intros H. apply hasUnsafeChar_false_iff in H. congruence.
- assert (Hs : sanitizeSearchValue str = str)
    by (unfold sanitizeSearchValue; now rewrite E).
  rewrite !Hs. apply hasUnsafeChar_false_iff in E. split; [split; auto | now left].
Qed.

(** ** The standardizer, continued *)



Lemma contributions_keys_standardized (filterKeys : list string)
  (getPersonalDetailByEmail : string -> option PersonalDetails)
  (cardList : CardList) (taxRates : Obj (list string)) (node : ASTNode) :
  map fst (contributions filterKeys
             (standardizeQueryJSON_traverse getPersonalDetailByEmail cardList taxRates node))
  = map fst (contributions filterKeys node).
Proof.
induction node as [op key rhs | op lhs IHl rhs | op lhs IHl rhs IHr];
  destruct op as [operator |]; simpl; try reflexivity.
- destruct (existsb (String.eqb key) filterKeys); reflexivity.
- exact IHl.
- now rewrite !map_app, IHl, IHr.
Qed.

(** What [standardizeQueryJSON] keeps: the input, the root fields, the
    stored hash, which is not computed again, and whether the query is
    canned. The flattened filters of the result are those of its own tree,
    whatever the argument held, under the same keys in the same order as
    the tree of the argument gives. *)
Theorem standardizeQueryJSON_keeps :
  forall (filterKeys : list string)
         (getPersonalDetailByEmail : string -> option PersonalDetails)
         (queryJSON : SearchQueryJSON) (cardList : CardList)
         (taxRates : Obj (list string)),
    let standardQuery :=
      standardizeQueryJSON filterKeys getPersonalDetailByEmail queryJSON cardList taxRates in
    inputQuery standardQuery = inputQuery queryJSON
    /\ hash standardQuery = hash queryJSON
    /\ sameRootFields standardQuery queryJSON
    /\ isCannedSearchQuery standardQuery = isCannedSearchQuery queryJSON
    /\ flatFilters standardQuery = getFilters filterKeys standardQuery
    /\ obj_keys (flatFilters standardQuery) = obj_keys (getFilters filterKeys queryJSON).
Proof.
intros filterKeys getPD queryJSON cardList taxRates.
unfold standardizeQueryJSON, isCannedSearchQuery.
unfold sameRootFields, getFilters.
destruct queryJSON as [iq h ty st sb so pid [ast |] flat];
  cbn [inputQuery hash type status sortBy sortOrder policyID filters flatFilters
       set_filters set_flatFilters];
  repeat split.
now rewrite !obj_keys_getFilters_traverse, contributions_keys_standardized.
Qed.

(** ** The query string without filters and the canned query *)

Lemma rootClause_ext (q1 q2 d1 d2 : option SearchQueryJSON) (key : RootKey) :
  rootFieldsOf q1 key = rootFieldsOf q2 key ->
  rootFieldsOf d1 key = rootFieldsOf d2 key ->
  rootClause q1 d1 key = rootClause q2 d2 key.
Proof.
unfold rootClause, rootFieldsOf. intros Hq Hd.
destruct q1, q2, d1, d2; rewrite ?Hq, ?Hd; try reflexivity;
  try (rewrite <- Hq); try (rewrite <- Hd); reflexivity.
Qed.

Lemma rootFieldsOf_buildSearchQueryJSON (keys : list string) (hashText : string -> N -> N)
  (parse : string -> option SearchQueryJSON) (query : string) (key : RootKey) :
  rootFieldsOf (buildSearchQueryJSON keys hashText parse query) key
  = rootFieldsOf (parse query) key.
Proof.
unfold buildSearchQueryJSON. destruct (parse query) as [result |]; [| reflexivity].
cbv zeta. rewrite getQueryHash_unfold. destruct key; reflexivity.
Qed.

Lemma flat_map_filterFragment_nil (keys : list string) :
  flat_map (filterFragment []) keys = [].
Proof. induction keys; simpl; auto. Qed.

Lemma buildSearchQueryString_shape (filterKeys : list string) (rootKeys : list RootKey)
  (hashText : string -> N -> N) (parse : string -> option SearchQueryJSON)
  (queryJSON : option SearchQueryJSON) :
  buildSearchQueryString filterKeys rootKeys hashText parse queryJSON
  = join " "
      (flat_map (rootClause queryJSON (parse EmptyString)) rootKeys
       ++ match queryJSON with
          | Some q => flat_map (filterFragment (flatFilters q)) filterKeys
          | None => []
          end)%list.
Proof.
unfold buildSearchQueryString.
assert (Hroot :
  flat_map (rootClause queryJSON (buildSearchQueryJSON filterKeys hashText parse EmptyString))
    rootKeys
  = flat_map (rootClause queryJSON (parse EmptyString)) rootKeys).
{ apply flat_map_ext. intros key. apply rootClause_ext; [reflexivity |].
  apply rootFieldsOf_buildSearchQueryJSON. }
destruct queryJSON as [q |].
- now rewrite fold_left_pushFilterKey, fold_left_pushRootKey, Hroot.
- now rewrite fold_left_pushRootKey, Hroot, app_nil_r.
Qed.

(** [buildSearchQueryString] without filters: for an undefined query the
    clauses of the root fields of the default query, which is what the
    parser makes of the empty string, and for a query whose [flatFilters]
    is empty the clauses of its own root fields, a missing policy taken
    from the default query. Nothing follows the root clauses. *)
Theorem buildSearchQueryString_root_clauses :
  forall (filterKeys : list string) (rootKeys : list RootKey)
         (hashText : string -> N -> N) (parse : string -> option SearchQueryJSON),
    buildSearchQueryString filterKeys rootKeys hashText parse None
    = join " " (flat_map (rootClause None (parse EmptyString)) rootKeys)
    /\ forall queryJSON : SearchQueryJSON,
         buildSearchQueryString filterKeys rootKeys hashText parse
           (Some (set_flatFilters queryJSON []))
         = join " " (flat_map (rootClause (Some queryJSON) (parse EmptyString)) rootKeys).
Proof.
intros filterKeys rootKeys hashText parse. split.
- now rewrite buildSearchQueryString_shape, app_nil_r.
- intros queryJSON.
  rewrite buildSearchQueryString_shape. cbn [flatFilters set_flatFilters].
  rewrite flat_map_filterFragment_nil, app_nil_r. reflexivity.
Qed.

Lemma flat_map_ext_In {A B : Type} (f g : A -> list B) (l : list A) :
  (forall x, In x l -> f x = g x) -> flat_map f l = flat_map g l.
Proof.
induction l as [| x l IH]; intros H; simpl; [reflexivity |].
rewrite (H x (or_introl eq_refl)), IH; [reflexivity |].
intros y Hy. apply H. now right.
Qed.

Lemma obj_get_filter_keys {V : Type} (keep : string -> bool) (key : string) (obj : Obj V) :
  keep key = true ->
  obj_get key (filter (fun entry => keep (fst entry)) obj) = obj_get key obj.
Proof.
intros Hkeep. induction obj as [| [k v] rest IH]; simpl; [reflexivity |].
destruct (keep k) eqn:Ek; simpl.
- destruct (String.eqb k key); [reflexivity | exact IH].
- destruct (String.eqb k key) eqn:E; [| exact IH].
  apply String.eqb_eq in E. subst k. congruence.
Qed.

(** [buildSearchQueryString] reads [flatFilters] through the keys of the
    table only: the filters under every other key are left out of the
    string, and dropping them from the query does not change it. *)
Theorem buildSearchQueryString_table_keys_only :
  forall (filterKeys : list string) (rootKeys : list RootKey)
         (hashText : string -> N -> N) (parse : string -> option SearchQueryJSON)
         (queryJSON : SearchQueryJSON),
    buildSearchQueryString filterKeys rootKeys hashText parse
      (Some (set_flatFilters queryJSON
               (filter (fun entry => existsb (String.eqb (fst entry)) filterKeys)
                  (flatFilters queryJSON))))
    = buildSearchQueryString filterKeys rootKeys hashText parse (Some queryJSON).
Proof.
intros filterKeys rootKeys hashText parse queryJSON.
rewrite !buildSearchQueryString_shape. f_equal. apply f_equal2.
- apply flat_map_ext. intros key. apply rootClause_ext; [| reflexivity].
  destruct key; reflexivity.
- cbn [flatFilters set_flatFilters].
  apply flat_map_ext_In. intros key Hkey. unfold filterFragment.
  rewrite (obj_get_filter_keys (fun k => existsb (String.eqb k) filterKeys)); [reflexivity |].
  apply existsb_exists. exists key. split; [exact Hkey | apply String.eqb_refl].
Qed.

(** [buildCannedSearchQuery]: when the parser throws on the canned string
    the function does not throw: it returns the root clauses of the default
    query. When the parser returns a query without tree, the string is the
    root clauses of that query, and nothing else. *)
Theorem buildCannedSearchQuery_root_clauses :
  forall (filterKeys : list string) (rootKeys : list RootKey)
         (hashText : string -> N -> N) (parse : string -> option SearchQueryJSON)
         (type status policyID : option string),
    match parse (cannedQueryString type status policyID) with
    | None =>
        buildCannedSearchQuery filterKeys rootKeys hashText parse type status policyID
        = join " " (flat_map (rootClause None (parse EmptyString)) rootKeys)
    | Some result =>
        match filters result with
        | Some _ => True
        | None =>
            buildCannedSearchQuery filterKeys rootKeys hashText parse type status policyID
            = join " "
                (flat_map (rootClause (Some result) (parse EmptyString)) rootKeys)
        end
    end.
Proof.
intros filterKeys rootKeys hashText parse type status policyID.
unfold buildCannedSearchQuery. rewrite buildSearchQueryString_shape.
pose proof (buildSearchQueryJSON_result filterKeys hashText parse
              (cannedQueryString type status policyID)) as Hfields.
destruct (parse (cannedQueryString type status policyID)) as [result |] eqn:Hparse.
- destruct (filters result) as [ast |] eqn:Hast; [exact I |].
  destruct Hfields as (r & -> & _ & Hroot & Hfilters & _ & _ & Hcanned).
  rewrite Hcanned by (unfold isCannedSearchQuery; now rewrite Hfilters).
  rewrite flat_map_filterFragment_nil, app_nil_r. f_equal.
  apply flat_map_ext. intros key. apply rootClause_ext; [| reflexivity].
  destruct Hroot as (Hty & Hst & Hsb & Hso & Hpid).
  destruct key; simpl; congruence.
- rewrite Hfields. now rewrite app_nil_r.
Qed.

(** ** White space at the ends of a string, continued *)

Lemma trimStart_chars (s : string) :
  list_ascii_of_string (trimStart s) = trimStartChars (list_ascii_of_string s).
Proof.
induction s as [| c s IH]; simpl; [reflexivity |].
destruct (isWhiteSpace c); [exact IH | reflexivity].
Qed.

Lemma trimEnd_chars (s : string) :
  list_ascii_of_string (trimEnd s) = rev (trimStartChars (rev (list_ascii_of_string s))).
Proof.
unfold trimEnd, reverse.
now rewrite list_ascii_of_string_of_list_ascii, trimStart_chars,
  list_ascii_of_string_of_list_ascii.
Qed.

Lemma lastChar_chars (s : string) :
  lastChar s = hd_error (rev (list_ascii_of_string s)).
Proof.
induction s as [| c s IH]; [reflexivity |].
cbn [list_ascii_of_string rev]. destruct s as [| d s].
- reflexivity.
- change (lastChar (String c (String d s))) with (lastChar (String d s)).
  rewrite IH. cbn [list_ascii_of_string rev].
  destruct (rev (list_ascii_of_string s) ++ [d])%list eqn:E; [| reflexivity].
  apply app_eq_nil in E. destruct E as [_ E]. discriminate E.
Qed.

Lemma trimStartChars_head (l : list ascii) :
  match hd_error (trimStartChars l) with
  | Some c => isWhiteSpace c = false
  | None => True
  end.
Proof.
induction l as [| c l IH]; simpl; [exact I |].
destruct (isWhiteSpace c) eqn:E; [exact IH | exact E].
Qed.

Lemma trimEnd_ends (s : string) : endsWithWhiteSpace (trimEnd s) = false.
Proof.
unfold endsWithWhiteSpace. rewrite lastChar_chars, trimEnd_chars, rev_involutive.
pose proof (trimStartChars_head (rev (list_ascii_of_string s))) as H.
destruct (hd_error (trimStartChars (rev (list_ascii_of_string s)))); auto.
Qed.

Lemma trimStartChars_app (a b : list ascii) (c : ascii) :
  isWhiteSpace c = false ->
  trimStartChars (a ++ c :: b) = (trimStartChars a ++ c :: b)%list.
Proof.
intros Hc. induction a as [| x a IH]; simpl.
- now rewrite Hc.
- destruct (isWhiteSpace x); [exact IH | reflexivity].
Qed.

Lemma string_of_chars_inj (s t : string) :
  list_ascii_of_string s = list_ascii_of_string t -> s = t.
Proof.
intros H. rewrite <- (string_of_list_ascii_of_string s), <- (string_of_list_ascii_of_string t).
now rewrite H.
Qed.

(** A prefix that ends with a character that is no white space stays when
    the end of the string is trimmed. *)
Lemma trimEnd_prefix (p : string) (c : ascii) (r : string) :
  isWhiteSpace c = false ->
  trimEnd ((p ++ String c EmptyString) ++ r) = (p ++ String c EmptyString) ++ trimEnd r.
Proof.
intros Hc. apply string_of_chars_inj.
rewrite list_ascii_of_string_append, !trimEnd_chars, !list_ascii_of_string_append.
cbn [list_ascii_of_string]. rewrite !rev_app_distr. cbn [rev app].
rewrite trimStartChars_app by exact Hc.
rewrite rev_app_distr. cbn [rev]. rewrite rev_involutive, <- !app_assoc. reflexivity.
Qed.

(** ** The form converter, continued *)

Lemma join_cons_prefix (sep x : string) (l : list string) :
  exists t, join sep (x :: l) = x ++ t.
Proof.
unfold join. destruct l as [| y l]; simpl.
- exists EmptyString. now rewrite append_empty_r.
- eexists. reflexivity.
Qed.

Lemma mapFilter_throws (keys : list string) (entry : string * FormValue) :
  mapFilter keys entry = None ->
  exists l, entry = (FILTER_KEYS.KEYWORD, Items l).
Proof.
destruct entry as [filterKey filterValue]. unfold mapFilter.
destruct (if isTextFormKey filterKey && truthyValue (Some filterValue)
          then option_map _ (keyInCorrectForm keys filterKey) else None);
  [discriminate |].
destruct (String.eqb filterKey FILTER_KEYS.KEYWORD) eqn:Ek; simpl; [| discriminate].
apply String.eqb_eq in Ek. subst filterKey.
destruct filterValue as [s | l]; [| intros _; now exists l].
destruct (truthy s); discriminate.
Qed.

Lemma mapEntries_throws (keys : list string) (entries : list (string * FormValue)) :
  mapEntries keys entries = None ->
  exists l, In (FILTER_KEYS.KEYWORD, Items l) entries.
Proof.
induction entries as [| entry rest IH]; simpl; [discriminate |].
destruct (mapFilter keys entry) as [mapped |] eqn:Em.
- destruct (mapEntries keys rest); [discriminate |].
  intros _. destruct (IH eq_refl) as [l Hl]. exists l. now right.
- intros _. destruct (mapFilter_throws keys entry Em) as [l ->]. exists l. now left.
Qed.

(** The string that [buildQueryStringFromFilterFormValues] returns begins
    with the sort column and the sort order, [sortBy:date sortOrder:desc],
    and does not end with white space. The function throws only on a form
    whose keyword is an array. *)
Theorem buildQueryStringFromFilterFormValues_ends :
  forall (filterKeys : list string) (filterValues : SearchAdvancedFiltersForm),
    match buildQueryStringFromFilterFormValues filterKeys filterValues with
    | Some queryString =>
        (exists rest, queryString = "sortBy:date sortOrder:desc" ++ rest)
        /\ endsWithWhiteSpace queryString = false
    | None => exists l, In (FILTER_KEYS.KEYWORD, Items l) filterValues
    end.
Proof.
intros filterKeys filterValues. unfold buildQueryStringFromFilterFormValues.
cbv zeta.
destruct (mapEntries filterKeys _) as [mapped |] eqn:Em.
- match goal with
  | |- context [join " " ?parts] =>
      assert (Hparts : exists tail, parts = "sortBy:date" :: "sortOrder:desc" :: tail)
  end.
  { unfold push, pushAll.
    destruct (truthyValue (obj_get "type" filterValues)),
             (truthyValue (obj_get "status" filterValues)),
             (truthyValue (obj_get "policyID" filterValues));
      cbn [app]; rewrite <- ?app_assoc; cbn [app]; eexists; reflexivity. }
  destruct Hparts as [tail ->].
  destruct (join_cons_prefix " " "sortOrder:desc" tail) as [t Ht].
  assert (Hjoin : join " " ("sortBy:date" :: "sortOrder:desc" :: tail)
                  = ("sortBy:date sortOrder:des" ++ "c") ++ t).
  { change (join " " ("sortBy:date" :: "sortOrder:desc" :: tail))
      with ("sortBy:date" ++ " " ++ join " " ("sortOrder:desc" :: tail)).
    rewrite Ht. reflexivity. }
  rewrite Hjoin. unfold trim.
  assert (Hstart : trimStart (("sortBy:date sortOrder:des" ++ "c") ++ t)
                   = ("sortBy:date sortOrder:des" ++ "c") ++ t) by reflexivity.
  rewrite Hstart. split.
  + rewrite trimEnd_prefix by reflexivity. eexists. reflexivity.
  + apply trimEnd_ends.
- destruct (mapEntries_throws _ _ Em) as [l Hl]. exists l.
  apply filter_In in Hl. apply Hl.
Qed.

Lemma keyInCorrectForm_member (keys : list string) (filterKey : string) :
  In filterKey keys -> keyInCorrectForm keys filterKey = Some filterKey.
Proof.
unfold keyInCorrectForm. induction keys as [| k keys IH]; simpl; [intros [] |].
destruct (String.eqb k filterKey) eqn:E.
- apply String.eqb_eq in E. now subst.
- intros [-> | H]; [now rewrite String.eqb_refl in E | now apply IH].
Qed.

Lemma isListFormKey_not_text (filterKey : string) :
  isListFormKey filterKey = true ->
  isTextFormKey filterKey = false /\ String.eqb filterKey FILTER_KEYS.KEYWORD = false.
Proof.
unfold isListFormKey. rewrite !orb_true_iff.
intros H.
repeat match goal with
       | H : _ \/ _ |- _ => destruct H as [H | H]
       end; apply String.eqb_eq in H; subst filterKey; split; reflexivity.
Qed.

(** A list field of the form is written once for each of its values: the
    clause of a list field that is in the table and is not empty is the
    key, a colon and the sanitized values joined by commas, each value of
    the field once, whatever the number of times the field holds it. *)
Theorem mapFilter_list_field :
  forall (filterKeys : list string) (filterKey : string) (values : list string),
    isListFormKey filterKey = true ->
    In filterKey filterKeys ->
    values <> [] ->
    exists kept,
      mapFilter filterKeys (filterKey, Items values)
      = Some (Some (filterKey ++ ":" ++ join "," (map sanitizeSearchValue kept)))
      /\ NoDup kept
      /\ forall v, In v kept <-> In v values.
Proof.
intros filterKeys filterKey values Hlist Hin Hne.
exists (uniqueValues values).
destruct (isListFormKey_not_text filterKey Hlist) as [Htext Hkeyword].
split; [| split].
- unfold mapFilter, mapListFilter. rewrite Htext, Hkeyword, Hlist. cbn [andb].
  rewrite (keyInCorrectForm_member filterKeys filterKey Hin).
  destruct values as [| v values]; [contradiction | reflexivity].
- apply (fold_addKey_NoDup values []). constructor.
- intros v. unfold uniqueValues.
  rewrite (fold_addKey_In values [] v). simpl. intuition.
Qed.

(** At a category field that holds one value twice. *)
Lemma mapFilter_list_field_witness :
  exists kept,
    mapFilter SYNTAX_FILTER_KEYS_sample ("category", Items ["Travel"; "Meals"; "Travel"])
    = Some (Some ("category" ++ ":" ++ join "," (map sanitizeSearchValue kept)))
    /\ NoDup kept
    /\ forall v, In v kept <-> In v ["Travel"; "Meals"; "Travel"].
Proof.
apply (mapFilter_list_field SYNTAX_FILTER_KEYS_sample "category"
         ["Travel"; "Meals"; "Travel"]).
- reflexivity.
- simpl. auto 20.
- discriminate.
Defined.

(** ** The display formatter, continued *)

Section DisplayProperties.

Variable Report : Type.
Variable COLLECTION_REPORT : string.
Variable getReportName : option Report -> string.
Variable PersonalDetails : PersonalDetailsList.
Variable cardList : CardList.
Variable reports : Obj Report.
Variable TaxRates : Obj (list string).

Local Abbreviation display key filter :=
  (getDisplayValue Report COLLECTION_REPORT getReportName key filter PersonalDetails cardList
     reports).

Lemma orElse_truthy (a : option string) (b : string) :
  truthy b = true -> truthy (orElse a b) = true.
Proof.
unfold orElse. destruct a as [s |]; simpl; [| auto].
destruct (truthy s) eqn:E; auto.
Qed.

(** A displayed value is never empty when the identifier is not: a login,
    a bank or a report name that is missing or empty gives way to the
    identifier. *)
Theorem getDisplayValue_not_empty :
  forall filterName filter : string,
    truthy filter = true ->
    truthy (getDisplayValue Report COLLECTION_REPORT getReportName filterName filter
              PersonalDetails cardList reports) = true.
Proof.
intros filterName filter H. unfold getDisplayValue.
destruct (String.eqb filterName CONST.FROM || String.eqb filterName CONST.TO);
  [now apply orElse_truthy |].
destruct (String.eqb filterName CONST.CARD_ID); [now apply orElse_truthy |].
destruct (String.eqb filterName SYNTAX.IN); [now apply orElse_truthy | exact H].
Qed.

Lemma fold_title (filters : QueryFilters) (keys : list string) (title : string) :
  fold_left
    (fun title key =>
       title ++ buildFilterValuesString key
                  (displayQueryFilters Report COLLECTION_REPORT getReportName key
                     (nullish (obj_get key filters) []) PersonalDetails cardList reports
                     TaxRates))
    keys title
  = title
      ++ String.concat EmptyString
           (map (fun key =>
                   buildFilterValuesString key
                     (displayQueryFilters Report COLLECTION_REPORT getReportName key
                        (nullish (obj_get key filters) []) PersonalDetails cardList reports
                        TaxRates))
                keys).
Proof.
revert title. induction keys as [| key keys IH]; intros title; simpl fold_left.
- simpl. now rewrite append_empty_r.
- rewrite IH. cbn [map]. rewrite concat_empty_cons, append_assoc. reflexivity.
Qed.

Lemma obj_get_entry {V : Type} (obj : Obj V) (k : string) (v : V) :
  NoDup (obj_keys obj) -> In (k, v) obj -> obj_get k obj = Some v.
Proof.
induction obj as [| [k0 v0] rest IH]; simpl; [intros _ [] |].
intros Hnd [Heq | Hin].
- injection Heq as -> ->. now rewrite String.eqb_refl.
- inversion Hnd as [| ? ? Hnotin Hnd']; subst.
  destruct (String.eqb k0 k) eqn:E.
  + apply String.eqb_eq in E. subst k0. exfalso. apply Hnotin.
    change k with (fst (k, v)). now apply in_map.
  + now apply IH.
Qed.

(** When the directories resolve no value of the query and the query has
    no tax-rate filter, the readable string is [type:] and [status:]
    followed by the fragments of the filters as they are, in the order of
    the keys of [flatFilters], with nothing between them. *)
Theorem buildUserReadableQueryString_unresolved :
  forall queryJSON : SearchQueryJSON,
    NoDup (obj_keys (flatFilters queryJSON)) ->
    (forall key queryFilter,
        In (key, queryFilter) (flatFilters queryJSON) ->
        String.eqb key CONST.TAX_RATE = false
        /\ forall filter, In filter queryFilter -> display key (value filter) = value filter) ->
    buildUserReadableQueryString Report COLLECTION_REPORT getReportName queryJSON
      PersonalDetails cardList reports TaxRates
    = ("type:" ++ type queryJSON ++ " status:" ++ status queryJSON)
        ++ String.concat EmptyString
             (map (fun entry => buildFilterValuesString (fst entry) (snd entry))
                (flatFilters queryJSON)).
Proof.
intros queryJSON Hnd Hunresolved. unfold buildUserReadableQueryString. cbv zeta.
rewrite fold_title. f_equal. f_equal. unfold obj_keys. rewrite map_map.
apply map_ext_in. intros [key queryFilter] Hin. cbn [fst snd].
rewrite (obj_get_entry _ _ _ Hnd Hin). cbn [nullish].
destruct (Hunresolved key queryFilter Hin) as [Htax Hvalues].
unfold displayQueryFilters. rewrite Htax. f_equal.
rewrite <- (map_id queryFilter) at 2. apply map_ext_in.
intros [op v] Hf. cbn [operator value]. f_equal. exact (Hvalues _ Hf).
Qed.

Lemma taxRateNamesOf_not_empty (id : string) :
  exists name names, taxRateNamesOf TaxRates id = name :: names.
Proof.
unfold taxRateNamesOf.
destruct (map fst (filter (fun entry => existsb (String.eqb id) (snd entry)) TaxRates))
  as [| name names]; simpl; eauto.
Qed.

(** Under the tax-rate key every displayed entry takes the operator of the
    first entry of the key: when that operator is eq or neq, the readable
    string lists the names of all the entries in one clause, whatever the
    operators of the entries after the first. *)
Theorem buildUserReadableQueryString_tax_rate :
  forall (queryJSON : SearchQueryJSON) (op : Operator) (first : QueryFilter)
         (others : list QueryFilter),
    flatFilters queryJSON = [(CONST.TAX_RATE, first :: others)] ->
    op = EQUAL_TO \/ op = NOT_EQUAL_TO ->
    operator first = op ->
    buildUserReadableQueryString Report COLLECTION_REPORT getReportName queryJSON
      PersonalDetails cardList reports TaxRates
    = ("type:" ++ type queryJSON ++ " status:" ++ status queryJSON)
        ++ " " ++ CONST.TAX_RATE ++ operatorToCharMap op
        ++ join ","
             (map sanitizeSearchValue
                (flat_map (taxRateNamesOf TaxRates) (map value (first :: others)))).
Proof.
intros queryJSON op first others Hflat Hop Hfirst.
unfold buildUserReadableQueryString. rewrite Hflat. cbv zeta.
cbn [obj_keys map fst fold_left obj_get]. rewrite String.eqb_refl. cbn [nullish].
f_equal. unfold displayQueryFilters. rewrite String.eqb_refl. cbv zeta.
cbn [hd_error option_map nullish]. rewrite Hfirst.
destruct (taxRateNamesOf_not_empty (value first)) as (name & names & Hnames).
cbn [map flat_map]. rewrite Hnames. cbn [app map].
rewrite (buildFilterValuesString_same_operator CONST.TAX_RATE op); auto.
- cbn [map value]. rewrite map_map. reflexivity.
- constructor; [reflexivity |]. apply Forall_forall. intros f Hf.
  apply in_map_iff in Hf. destruct Hf as [x [<- _]]. reflexivity.
Qed.

End DisplayProperties.

Lemma getDisplayValue_not_empty_witness :
  truthy (getDisplayValue string "report_" getReportName_sample "from" "12"
            personalDetails_sample cardList_sample reports_sample) = true.
Proof.
apply (getDisplayValue_not_empty string "report_" getReportName_sample
         personalDetails_sample cardList_sample reports_sample "from" "12").
reflexivity.
Defined.

Lemma buildUserReadableQueryString_tax_rate_witness :
  buildUserReadableQueryString string "report_" getReportName_sample taxRateQuery
    personalDetails_sample cardList_sample reports_sample taxRates_sample
  = "type:expense status:all taxRate:VAT,other".
Proof.
apply (buildUserReadableQueryString_tax_rate string "report_" getReportName_sample
         personalDetails_sample cardList_sample reports_sample taxRates_sample
         taxRateQuery EQUAL_TO (mkQueryFilter EQUAL_TO "id_TAX_RATE_1")
         [mkQueryFilter NOT_EQUAL_TO "other"]).
- reflexivity.
- now left.
- reflexivity.
Defined.

Lemma buildUserReadableQueryString_unresolved_witness :
  buildUserReadableQueryString string "report_" getReportName_sample unknownQuery
    personalDetails_sample cardList_sample reports_sample taxRates_sample
  = "type:expense status:all merchant:Acme from:99,12".
Proof.
apply (buildUserReadableQueryString_unresolved string "report_" getReportName_sample
         personalDetails_sample cardList_sample reports_sample taxRates_sample
         unknownQuery).
- repeat constructor; simpl; intuition discriminate.
- intros key queryFilter Hin. simpl in Hin.
  destruct Hin as [Hin | [Hin | []]]; injection Hin as <- <-; split; try reflexivity;
    intros filter Hf; simpl in Hf;
    repeat match goal with
           | H : _ \/ _ |- _ => destruct H
           | H : False |- _ => destruct H
           end; subst; reflexivity.
Defined.

(** ** The form of a query, continued *)

Lemma Operator_eqb_true (a b : Operator) : Operator_eqb a b = true -> a = b.
Proof. destruct a, b; simpl; congruence. Qed.

Lemma includes_In (array : list string) (x : string) :
  includes array x = true -> In x array.
Proof.
unfold includes. intros H. apply existsb_exists in H as [y [Hy E]].
apply String.eqb_eq in E. now subst.
Qed.

Lemma find_first {A : Type} (p : A -> bool) (l : list A) (x : A) :
  find p l = Some x ->
  p x = true /\
  exists before after, l = (before ++ x :: after)%list /\ Forall (fun y => p y = false) before.
Proof.
induction l as [| y l IH]; simpl; [discriminate |].
destruct (p y) eqn:E.
- intros [= ->]. split; [exact E |]. exists [], l. split; [reflexivity | constructor].
- intros H. destruct (IH H) as [Hp [before [after [-> Hall]]]].
  split; [exact Hp |]. exists (y :: before), after. split; [reflexivity |].
  now constructor.
Qed.

Lemma fold_left_get (f : PartialForm -> string -> PartialForm) (k s : string)
  (X : option FormValue) (keys : list string) (form : PartialForm) :
  (forall form, obj_get k (f form s) = Some X) ->
  (forall form key, key <> s -> obj_get k (f form key) = obj_get k form) ->
  obj_get k (fold_left f keys form)
  = if existsb (String.eqb s) keys then Some X else obj_get k form.
Proof.
intros Hs Hother. revert form.
induction keys as [| a keys IH]; intros form; simpl; [reflexivity |].
rewrite IH. destruct (String.eqb s a) eqn:E; simpl.
- apply String.eqb_eq in E. subst a. rewrite Hs.
  now destruct (existsb (String.eqb s) keys).
- apply String.eqb_neq in E. rewrite Hother by congruence. reflexivity.
Qed.

Lemma fold_left_frame (f : PartialForm -> string -> PartialForm) (k : string)
  (keys : list string) (form : PartialForm) :
  (forall form key, obj_get k (f form key) = obj_get k form) ->
  obj_get k (fold_left f keys form) = obj_get k form.
Proof.
intros H. revert form.
induction keys as [| a keys IH]; intros form; simpl; [reflexivity |].
now rewrite IH, H.
Qed.

Lemma fold_left_invariant (f : PartialForm -> string -> PartialForm)
  (Inv : PartialForm -> Prop) (keys : list string) (form : PartialForm) :
  (forall form key, Inv form -> Inv (f form key)) ->
  Inv form -> Inv (fold_left f keys form).
Proof.
intros H. revert form.
induction keys as [| a keys IH]; intros form Hform; simpl; [exact Hform |].
apply IH, H, Hform.
Qed.

Lemma existsb_obj_keys {V : Type} (k : string) (obj : Obj V) :
  existsb (String.eqb k) (obj_keys obj) = true -> exists v, obj_get k obj = Some v.
Proof.
induction obj as [| [k0 v0] rest IH]; simpl; [discriminate |].
rewrite String.eqb_sym. destruct (String.eqb k0 k); simpl.
- intros _. now exists v0.
- exact IH.
Qed.

Lemma Operator_eqb_refl (a : Operator) : Operator_eqb a a = true.
Proof. now destruct a. Qed.

Lemma boundOf_firstValidEntry (filters : QueryFilters) (key : string) (op : Operator)
  (valid : string -> bool) (d : string) :
  boundOf (obj_get key filters) op valid = Some (Text d) ->
  firstValidEntry filters key op valid d.
Proof.
unfold boundOf, firstValidEntry.
destruct (obj_get key filters) as [entries |]; [| discriminate].
destruct (find _ entries) as [found |] eqn:Hfind; [| discriminate].
intros [= <-]. apply find_first in Hfind as [Hp [before [after [-> Hall]]]].
apply andb_true_iff in Hp as [Hop Hvalid]. apply Operator_eqb_true in Hop.
exists before, after. destruct found as [o v]. simpl in *. subst o.
split; [reflexivity |]. split; [exact Hvalid |].
eapply Forall_impl; [| exact Hall]. intros filter Hfalse Hfilter. cbn beta in Hfalse.
now rewrite Hfilter, Operator_eqb_refl in Hfalse.
Qed.

Section FormFromQueryProperties.

Variable PolicyTagLists : Type.
Variable emptyTagLists : PolicyTagLists.
Variable getTagNamesFromTagsLists : PolicyTagLists -> list string.
Variable Currency : Type.
Variable Report : Type.
Variable isValidDate : string -> bool.
Variable validateAmount : string -> nat -> bool.
Variable TRANSACTION_TYPE : list string.
Variable DATA_TYPES : Obj string.
Variable STATUS : Obj (Obj string).
Variable EMPTY_VALUE : string.
Variable COLLECTION_REPORT : string.
Variable COLLECTION_POLICY_TAGS : string.
Variable COLLECTION_POLICY_CATEGORIES : string.

Variable queryJSON : SearchQueryJSON.
Variable policyCategories : Obj (Obj PolicyCategory).
Variable policyTags : Obj PolicyTagLists.
Variable currencyList : Obj Currency.
Variable personalDetails : PersonalDetailsList.
Variable cardList : CardList.
Variable reports : Obj Report.
Variable taxRates : Obj (list string).

Local Abbreviation step :=
  (projectFilter PolicyTagLists emptyTagLists getTagNamesFromTagsLists Currency Report
     isValidDate validateAmount TRANSACTION_TYPE EMPTY_VALUE COLLECTION_REPORT
     COLLECTION_POLICY_TAGS COLLECTION_POLICY_CATEGORIES queryJSON policyCategories
     policyTags currencyList personalDetails cardList reports taxRates).

Local Abbreviation filtersForm :=
  (buildFilterFormValuesFromQuery PolicyTagLists emptyTagLists getTagNamesFromTagsLists
     Currency Report isValidDate validateAmount TRANSACTION_TYPE DATA_TYPES STATUS
     EMPTY_VALUE COLLECTION_REPORT COLLECTION_POLICY_TAGS COLLECTION_POLICY_CATEGORIES
     queryJSON policyCategories policyTags currencyList personalDetails cardList reports
     taxRates).

(** One turn of the loop writes under the key it looks at, or under the two
    bounds of the date or of the amount, and nowhere else. *)
Lemma projectFilter_frame (k : string) (form : PartialForm) (filterKey : string) :
  obj_get k (step form filterKey) = obj_get k form
  \/ k = filterKey
     /\ In filterKey
          [SYNTAX.REPORT_ID; SYNTAX.MERCHANT; SYNTAX.DESCRIPTION; SYNTAX.EXPENSE_TYPE;
           CONST.CARD_ID; CONST.TAX_RATE; SYNTAX.IN; CONST.FROM; CONST.TO; SYNTAX.CURRENCY;
           SYNTAX.TAG; SYNTAX.CATEGORY; CONST.KEYWORD]
  \/ filterKey = CONST.DATE /\ In k [FILTER_KEYS.DATE_BEFORE; FILTER_KEYS.DATE_AFTER]
  \/ filterKey = CONST.AMOUNT /\ In k [FILTER_KEYS.LESS_THAN; FILTER_KEYS.GREATER_THAN].
Proof.
project_cases filterKey; rewrite ?obj_get_set;
  repeat match goal with
  | |- context [String.eqb ?a k] =>
      let E := fresh "E" in
      destruct (String.eqb a k) eqn:E;
      [ apply String.eqb_eq in E; subst k; simpl; tauto | ]
  end;
  now left.
Qed.

Lemma fold_projectFilter_untouched (k : string) (keys : list string) (form : PartialForm) :
  ~ In k [SYNTAX.REPORT_ID; SYNTAX.MERCHANT; SYNTAX.DESCRIPTION; SYNTAX.EXPENSE_TYPE;
          CONST.CARD_ID; CONST.TAX_RATE; SYNTAX.IN; CONST.FROM; CONST.TO; SYNTAX.CURRENCY;
          SYNTAX.TAG; SYNTAX.CATEGORY; CONST.KEYWORD; FILTER_KEYS.DATE_BEFORE;
          FILTER_KEYS.DATE_AFTER; FILTER_KEYS.LESS_THAN; FILTER_KEYS.GREATER_THAN] ->
  obj_get k (fold_left step keys form) = obj_get k form.
Proof.
intros Hk. apply fold_left_frame. intros form' key.
destruct (projectFilter_frame k form' key) as [H | [[-> H] | [[_ H] | [_ H]]]];
  [exact H | exfalso; apply Hk; simpl in *; tauto ..].
Qed.

(** The values that the form accepts under a key that holds a list. *)
Let knownValue (key x : string) : Prop :=
  (exists entries,
      obj_get key (flatFilters queryJSON) = Some entries /\ In x (map value entries))
  /\ (key = SYNTAX.EXPENSE_TYPE -> In x TRANSACTION_TYPE)
  /\ (key = CONST.CARD_ID -> In x (obj_keys cardList))
  /\ (key = CONST.TAX_RATE -> exists names, In names (obj_values taxRates) /\ In x names)
  /\ (key = SYNTAX.IN -> obj_get (COLLECTION_REPORT ++ x) reports <> None)
  /\ (key = CONST.FROM \/ key = CONST.TO -> In x (obj_keys personalDetails))
  /\ (key = SYNTAX.CURRENCY -> In x (obj_keys currencyList))
  /\ (key = SYNTAX.TAG ->
      In x (tagNames PolicyTagLists emptyTagLists getTagNamesFromTagsLists EMPTY_VALUE
              COLLECTION_POLICY_TAGS (policyID queryJSON) policyTags))
  /\ (key = SYNTAX.CATEGORY ->
      In x (categoryNames EMPTY_VALUE COLLECTION_POLICY_CATEGORIES (policyID queryJSON)
              policyCategories))
  /\ In key [SYNTAX.EXPENSE_TYPE; CONST.CARD_ID; CONST.TAX_RATE; SYNTAX.IN; CONST.FROM;
             CONST.TO; SYNTAX.CURRENCY; SYNTAX.TAG; SYNTAX.CATEGORY].

Let listsKnown (form : PartialForm) : Prop :=
  forall key l x, obj_get key form = Some (Some (Items l)) -> In x l -> knownValue key x.

Lemma listsKnown_set (form : PartialForm) (k : string) (v : option FormValue) :
  (forall l x, v = Some (Items l) -> In x l -> knownValue k x) ->
  listsKnown form -> listsKnown (obj_set k v form).
Proof.
intros Hv Hform key l x Hget Hin. rewrite obj_get_set in Hget.
destruct (String.eqb k key) eqn:E.
- apply String.eqb_eq in E. subst key. injection Hget as Hget. eauto.
- eauto.
Qed.

Lemma projectFilter_listsKnown (form : PartialForm) (filterKey : string) :
  listsKnown form -> listsKnown (step form filterKey).
Proof.
intros Hform.
project_cases filterKey; try exact Hform;
  repeat (apply listsKnown_set; [| try exact Hform]);
  intros l x Hv Hin.
all: try (unfold boundOf in Hv;
       destruct (obj_get _ (flatFilters queryJSON)) as [entries |];
       [| discriminate];
       match type of Hv with context [find ?p ?l] => destruct (find p l) end;
       discriminate).
all: destruct (obj_get _ (flatFilters queryJSON)) as [entries |] eqn:He;
  try discriminate Hv; try (destruct entries; discriminate Hv);
  cbn [option_map] in Hv; try discriminate Hv; injection Hv as <-.
all: try (apply filter_In in Hin as [Hin Hp]).
all: unfold knownValue;
  repeat match goal with
  | |- _ /\ _ => split
  | |- _ = _ -> _ => let H := fresh in intros H; try discriminate H
  | |- _ \/ _ -> _ => let H := fresh in intros H; try (destruct H; discriminate)
  end;
  try (simpl; tauto); try (now exists entries); try (now apply includes_In).
- apply includes_In, in_concat in Hp. destruct Hp as [names [Hnames Hx]]. now exists names.
- destruct (obj_get (COLLECTION_REPORT ++ x) reports); [discriminate | discriminate Hp].
- exists entries. split; [exact He |].
  apply in_map_iff in Hin as [currency [<- Hcur]].
  apply filter_In in Hcur as [Hcur _]. now apply in_map.
- apply in_map_iff in Hin as [currency [<- Hcur]].
  apply filter_In in Hcur as [_ Hcur]. now apply includes_In.
Qed.

Lemma buildFilterFormValuesFromQuery_listsKnown : listsKnown filtersForm.
Proof.
unfold buildFilterFormValuesFromQuery. cbv zeta.
assert (Hloop : listsKnown (fold_left step (obj_keys (flatFilters queryJSON)) [])).
{ apply fold_left_invariant; [exact projectFilter_listsKnown |].
  intros key l x H. discriminate H. }
assert (Hroot : listsKnown
  (obj_set FILTER_KEYS.STATUS
     (Some (Text (if match option_map fst
                          (find (fun entry => includes (obj_values (snd entry))
                                                (status queryJSON)) STATUS) with
                     | Some k =>
                         String.eqb
                           (nullish (option_map fst
                              (find (fun entry => String.eqb (snd entry) (type queryJSON))
                                 DATA_TYPES)) EmptyString) k
                     | None => false
                     end
                  then status queryJSON else DEFAULTS.STATUS_EXPENSE_ALL)))
     (obj_set FILTER_KEYS.TYPE
        (Some (Text (if truthy_opt (option_map snd
                          (find (fun entry => String.eqb (snd entry) (type queryJSON))
                             DATA_TYPES))
                     then type queryJSON else DEFAULTS.DATA_TYPES_EXPENSE)))
        (fold_left step (obj_keys (flatFilters queryJSON)) [])))).
{ apply listsKnown_set; [intros l x H; discriminate H |].
  apply listsKnown_set; [intros l x H; discriminate H | exact Hloop]. }
destruct (truthy_opt (policyID queryJSON)); [| exact Hroot].
apply listsKnown_set; [intros l x H; discriminate H | exact Hroot].
Qed.

(** A list of the form holds only values of the query that the
    directories know. Where buildFilterFormValuesFromQuery returns a list
    under a key, the key is one of expenseType, cardID, taxRate, in, from, to,
    currency, tag and category, and every element of the list is a value of
    an entry of the query under that key; moreover an expense type is a
    transaction type, a card is a key of the card list, a tax rate is listed
    under some tax name, a report is in the collection of reports, a
    participant is a key of the personal details, a currency is a key of the
    currency list, and a tag or a category is a name of the policy (of all
    policies when the query has no policy) or the empty value. *)
Theorem buildFilterFormValuesFromQuery_known_values (key : string) (l : list string)
  (x : string) :
  obj_get key filtersForm = Some (Some (Items l)) ->
  In x l ->
  (exists entries,
      obj_get key (flatFilters queryJSON) = Some entries /\ In x (map value entries))
  /\ (key = SYNTAX.EXPENSE_TYPE -> In x TRANSACTION_TYPE)
  /\ (key = CONST.CARD_ID -> In x (obj_keys cardList))
  /\ (key = CONST.TAX_RATE -> exists names, In names (obj_values taxRates) /\ In x names)
  /\ (key = SYNTAX.IN -> obj_get (COLLECTION_REPORT ++ x) reports <> None)
  /\ (key = CONST.FROM \/ key = CONST.TO -> In x (obj_keys personalDetails))
  /\ (key = SYNTAX.CURRENCY -> In x (obj_keys currencyList))
  /\ (key = SYNTAX.TAG ->
      In x (tagNames PolicyTagLists emptyTagLists getTagNamesFromTagsLists EMPTY_VALUE
              COLLECTION_POLICY_TAGS (policyID queryJSON) policyTags))
  /\ (key = SYNTAX.CATEGORY ->
      In x (categoryNames EMPTY_VALUE COLLECTION_POLICY_CATEGORIES (policyID queryJSON)
              policyCategories))
  /\ In key [SYNTAX.EXPENSE_TYPE; CONST.CARD_ID; CONST.TAX_RATE; SYNTAX.IN; CONST.FROM;
             CONST.TO; SYNTAX.CURRENCY; SYNTAX.TAG; SYNTAX.CATEGORY].
Proof.
intros Hget Hin. exact (buildFilterFormValuesFromQuery_listsKnown key l x Hget Hin).
Qed.

Lemma buildFilterFormValuesFromQuery_loop_field (k : string) :
  k <> FILTER_KEYS.TYPE -> k <> FILTER_KEYS.STATUS -> k <> FILTER_KEYS.POLICY_ID ->
  obj_get k filtersForm = obj_get k (fold_left step (obj_keys (flatFilters queryJSON)) []).
Proof.
intros Htype Hstatus Hpolicy. unfold buildFilterFormValuesFromQuery. cbv zeta.
destruct (truthy_opt (policyID queryJSON)); rewrite !obj_get_set;
  repeat match goal with
  | |- context [String.eqb ?a k] =>
      let E := fresh "E" in
      destruct (String.eqb a k) eqn:E; [apply String.eqb_eq in E; congruence |]
  end; reflexivity.
Qed.

Lemma buildFilterFormValuesFromQuery_bound (s k : string) (op : Operator)
  (valid : string -> bool) (d : string) :
  (forall form,
      obj_get k (step form s)
      = Some (boundOf (obj_get s (flatFilters queryJSON)) op valid)) ->
  s = CONST.DATE \/ s = CONST.AMOUNT ->
  (s = CONST.DATE -> In k [FILTER_KEYS.DATE_BEFORE; FILTER_KEYS.DATE_AFTER]) ->
  (s = CONST.AMOUNT -> In k [FILTER_KEYS.LESS_THAN; FILTER_KEYS.GREATER_THAN]) ->
  obj_get k filtersForm = Some (Some (Text d)) ->
  firstValidEntry (flatFilters queryJSON) s op valid d.
Proof.
intros Hstep Hs Hdate Hamount Hget.
rewrite buildFilterFormValuesFromQuery_loop_field in Hget;
  [| destruct Hs as [-> | ->];
     [destruct (Hdate eq_refl) as [<- | [<- | []]]; discriminate
     | destruct (Hamount eq_refl) as [<- | [<- | []]]; discriminate] ..].
rewrite (fold_left_get step k s _ _ _ Hstep) in Hget.
- destruct (existsb _ _); [| discriminate Hget].
  injection Hget as Hget. now apply boundOf_firstValidEntry.
- intros form key Hkey.
  destruct (projectFilter_frame k form key) as [H | [[-> H] | [[-> H] | [-> H]]]].
  + exact H.
  + exfalso. destruct Hs as [-> | ->];
      [destruct (Hdate eq_refl) as [<- | [<- | []]]
      | destruct (Hamount eq_refl) as [<- | [<- | []]]];
      simpl in H; repeat (destruct H as [H | H]; [discriminate H |]); exact H.
  + exfalso. destruct Hs as [-> | ->]; [now apply Hkey |].
    destruct (Hamount eq_refl) as [<- | [<- | []]];
      simpl in H; repeat (destruct H as [H | H]; [discriminate H |]); exact H.
  + exfalso. destruct Hs as [-> | ->]; [| now apply Hkey].
    destruct (Hdate eq_refl) as [<- | [<- | []]];
      simpl in H; repeat (destruct H as [H | H]; [discriminate H |]); exact H.
Qed.

(** The bounds of the form are the first valid bounds of the query. Where
    the form of buildFilterFormValuesFromQuery has a date before, it is a
    valid date and the value of the first entry of the query under date with
    operator lt and a valid date; the date after is the same with operator
    gt; less than and greater than are the same under amount with operators
    lt and gt and validateAmount with two decimals. *)
Theorem buildFilterFormValuesFromQuery_bounds (field d : string) :
  obj_get field filtersForm = Some (Some (Text d)) ->
  (field = FILTER_KEYS.DATE_BEFORE ->
   firstValidEntry (flatFilters queryJSON) CONST.DATE LOWER_THAN isValidDate d)
  /\ (field = FILTER_KEYS.DATE_AFTER ->
      firstValidEntry (flatFilters queryJSON) CONST.DATE GREATER_THAN isValidDate d)
  /\ (field = FILTER_KEYS.LESS_THAN ->
      firstValidEntry (flatFilters queryJSON) CONST.AMOUNT LOWER_THAN
        (fun amount => validateAmount amount 2) d)
  /\ (field = FILTER_KEYS.GREATER_THAN ->
      firstValidEntry (flatFilters queryJSON) CONST.AMOUNT GREATER_THAN
        (fun amount => validateAmount amount 2) d).
Proof.
intros Hget.
repeat split; intros ->;
  (eapply buildFilterFormValuesFromQuery_bound; [| | | | exact Hget];
   [ intros form; unfold projectFilter; eval_eqb; cbn [orb]; cbv beta iota zeta;
     rewrite !obj_get_set; eval_eqb; reflexivity
   | (now left) || (now right)
   | (intros H; discriminate H) || (intros _; simpl; auto)
   | (intros H; discriminate H) || (intros _; simpl; auto) ]).
Qed.

(** The root fields of the form. The form of
    buildFilterFormValuesFromQuery always has a type and a status, whatever
    the filters hold: the type is the type of the query when it is not empty
    and DATA_TYPES lists it, and expense otherwise; the status is the status
    of the query when a group of STATUS lists it and the first such group is
    named like the first data type with the type of the query (or has the
    empty name when no data type has it), and all otherwise. The policy field
    is the policy of the query when that is not empty, and is absent
    otherwise. *)
Theorem buildFilterFormValuesFromQuery_root_fields :
  (obj_get FILTER_KEYS.TYPE filtersForm = Some (Some (Text (type queryJSON)))
   /\ In (type queryJSON) (obj_values DATA_TYPES)
   \/ obj_get FILTER_KEYS.TYPE filtersForm = Some (Some (Text DEFAULTS.DATA_TYPES_EXPENSE)))
  /\ (obj_get FILTER_KEYS.STATUS filtersForm = Some (Some (Text (status queryJSON)))
      /\ (exists group statuses,
             In (group, statuses) STATUS
             /\ In (status queryJSON) (obj_values statuses)
             /\ (In (group, type queryJSON) DATA_TYPES \/ group = EmptyString))
      \/ obj_get FILTER_KEYS.STATUS filtersForm
         = Some (Some (Text DEFAULTS.STATUS_EXPENSE_ALL)))
  /\ obj_get FILTER_KEYS.POLICY_ID filtersForm
     = (if truthy_opt (policyID queryJSON)
        then Some (Some (Text (nullish (policyID queryJSON) EmptyString)))
        else None).
Proof.
unfold buildFilterFormValuesFromQuery. cbv zeta.
set (loop := fold_left step (obj_keys (flatFilters queryJSON)) []).
set (found := find (fun entry => String.eqb (snd entry) (type queryJSON)) DATA_TYPES).
set (group := find (fun entry => includes (obj_values (snd entry)) (status queryJSON)) STATUS).
assert (Hloop : obj_get FILTER_KEYS.POLICY_ID loop = None).
{ unfold loop. rewrite fold_projectFilter_untouched; [reflexivity |].
  simpl. intros H. repeat (destruct H as [H | H]; [discriminate H |]). exact H. }
split; [| split].
- destruct (truthy_opt (policyID queryJSON)); rewrite !obj_get_set; eval_eqb.
  all: destruct found as [[k v] |] eqn:Hfound; cbn [option_map snd truthy_opt];
    [| now right].
  all: destruct (truthy v); [left | now right].
  all: split; [reflexivity |].
  all: apply find_some in Hfound as [Hin Heq]; apply String.eqb_eq in Heq;
    cbn [snd] in Heq; subst v; now apply (in_map snd) in Hin.
- destruct (truthy_opt (policyID queryJSON)); rewrite !obj_get_set; eval_eqb.
  all: destruct group as [[g statuses] |] eqn:Hgroup; cbn [option_map fst];
    [| now right].
  all: destruct (String.eqb _ g) eqn:Hg; [left | now right].
  all: split; [reflexivity |].
  all: apply String.eqb_eq in Hg; apply find_some in Hgroup as [Hin Hlists];
    cbn [snd] in Hlists; apply includes_In in Hlists.
  all: exists g, statuses; split; [exact Hin |]; split; [exact Hlists |].
  all: destruct found as [[k v] |] eqn:Hfound; cbn [option_map fst nullish] in Hg;
    [left | now right].
  all: apply find_some in Hfound as [Hin' Heq]; apply String.eqb_eq in Heq;
    cbn [snd] in Heq; now subst.
- destruct (truthy_opt (policyID queryJSON)); rewrite !obj_get_set; eval_eqb;
    [reflexivity | exact Hloop].
Qed.

End FormFromQueryProperties.

(** At [boundedQuery]: the sender 99 is dropped, the sender 12 is kept. *)
Lemma buildFilterFormValuesFromQuery_known_values_witness :
  obj_get "from" boundedForm = Some (Some (Items ["12"]))
  /\ In "12" (obj_keys personalDetails_sample).
Proof.
split; [reflexivity |].
destruct (buildFilterFormValuesFromQuery_known_values (list string) [] (fun tagList => tagList)
            unit string isValidDate_sample validateAmount_sample ["cash"; "card"]
            DATA_TYPES_sample STATUS_sample "none" "report_" "policyTags_"
            "policyCategories_" boundedQuery [] [] [] personalDetails_sample cardList_sample
            reports_sample taxRates_sample "from" ["12"] "12" eq_refl (or_introl eq_refl))
  as (_ & _ & _ & _ & _ & H & _).
apply H. now left.
Defined.

(** At [boundedQuery]: the date before is the second entry, the first
    one being no date. *)
Lemma buildFilterFormValuesFromQuery_bounds_witness :
  obj_get "dateBefore" boundedForm = Some (Some (Text "2024-01-01"))
  /\ firstValidEntry (flatFilters boundedQuery) "date" LOWER_THAN isValidDate_sample
       "2024-01-01".
Proof.
split; [reflexivity |].
destruct (buildFilterFormValuesFromQuery_bounds (list string) [] (fun tagList => tagList)
            unit string isValidDate_sample validateAmount_sample ["cash"; "card"]
            DATA_TYPES_sample STATUS_sample "none" "report_" "policyTags_"
            "policyCategories_" boundedQuery [] [] [] personalDetails_sample cardList_sample
            reports_sample taxRates_sample "dateBefore" "2024-01-01" eq_refl)
  as (H & _).
exact (H eq_refl).
Defined.
